(** * Replit bounty scraper: extraction, selection and the sent-bounty tracker

    A shallow embedding of [api/index.py], function by function, and the
    properties of its pipeline: the tiers of the extraction, the price
    and the id of a bounty, the choice of the bounty to send, the tracker
    of sent bounties and the two endpoints that run the pipeline.

    The calls into libraries are modelled as follows.

    - [str]: Rocq [string]s.  The model is exact on ASCII text ([len],
      slicing and [encode] count bytes here and code points in Python).
    - [float]: every float of the program is parsed from a decimal literal
      with no or two fractional digits, or is such a literal of the source.
      A float is modelled by its exact value in hundredths (a [Z]); the
      order and equality of the model are those of binary64 below 2^53
      hundredths.
    - [re.findall]: the four patterns of the source are compiled by hand
      into greedy matchers.  For these patterns a backtracking matcher never
      finds a match where the greedy one fails: after a shorter choice the
      next character is a digit, a comma, a dot or white space, and none of
      them can start the rest of the pattern.
    - [bs4]: a document is a forest of tags and strings, with the
      selectors and searches the source uses; the HTML parser itself is a
      field of the environment, which gives the document or tells that the
      parser rejects the markup.
    - [urllib.parse.urljoin], [hashlib.md5]: defined below, following the
      library (MD5 is RFC 1321).
    - [requests], [os.getenv], [datetime.now]: fields of the environment
      of a request.  The tracker and the storage file are the state of the
      world, threaded through the handlers by a state monad.

    The broad [except Exception] handlers of the source are modelled where
    the body can raise in the model: the constructor of the document in
    [_parse_bounties], [urljoin] in [_extract_bounty_data], the calls of
    [requests], the reading and the writing of the storage file.  A save
    that fails leaves the file as it was when [open] raises, and cut short
    when the writing raises after [open] has emptied the file. *)

From Stdlib Require Import ZArith Ascii String List Bool Lia.
From stdpp Require Import base option list strings gmap.

Local Open Scope string_scope.
Local Open Scope Z_scope.

(** ** Python strings *)

Module Str.

Definition code (c : ascii) : nat := nat_of_ascii c.

Definition between (lo hi : nat) (c : ascii) : bool :=
  (lo <=? code c)%nat && (code c <=? hi)%nat.

(** [\d] on ASCII text. *)
Definition is_digit : ascii -> bool := between 48 57.

(** [\s] and [str.isspace] on ASCII text. *)
Definition is_space (c : ascii) : bool :=
  between 9 13 c || between 28 32 c.

Definition is_alpha (c : ascii) : bool :=
  between 65 90 c || between 97 122 c.

Definition lower (c : ascii) : ascii :=
  if between 65 90 c then ascii_of_nat (code c + 32) else c.

Definition lower_str (s : string) : string :=
  string_of_list_ascii (map lower (list_ascii_of_string s)).

Definition ch (c : ascii) : string := String c EmptyString.

Fixpoint all (p : ascii -> bool) (s : string) : bool :=
  match s with
  | EmptyString => true
  | String c r => p c && all p r
  end.

Fixpoint contains_char (x : ascii) (s : string) : bool :=
  match s with
  | EmptyString => false
  | String c r => Ascii.eqb c x || contains_char x r
  end.

(** [s.replace(x, "")] for a one-character [x]. *)
Fixpoint remove_char (x : ascii) (s : string) : string :=
  match s with
  | EmptyString => EmptyString
  | String c r =>
      if Ascii.eqb c x then remove_char x r else String c (remove_char x r)
  end.

(** [s.lstrip(chars)] with the characters given as a predicate. *)
Fixpoint lstrip_by (p : ascii -> bool) (s : string) : string :=
  match s with
  | EmptyString => EmptyString
  | String c r => if p c then lstrip_by p r else s
  end.

Definition rev_str (s : string) : string :=
  string_of_list_ascii (rev (list_ascii_of_string s)).

Definition rstrip_by (p : ascii -> bool) (s : string) : string :=
  rev_str (lstrip_by p (rev_str s)).

(** [s.strip()]. *)
Definition strip (s : string) : string :=
  rstrip_by is_space (lstrip_by is_space s).

(** [s.partition(x)]: the text before the first [x] and the text after
    it, when [x] occurs. *)
Fixpoint partition (x : ascii) (s : string) : option (string * string) :=
  match s with
  | EmptyString => None
  | String c r =>
      if Ascii.eqb c x then Some (EmptyString, r)
      else match partition x r with
           | Some (a, b) => Some (String c a, b)
           | None => None
           end
  end.

(** [s.split(x)]. *)
Fixpoint split_on (x : ascii) (s : string) : list string :=
  match s with
  | EmptyString => [EmptyString]
  | String c r =>
      if Ascii.eqb c x then EmptyString :: split_on x r
      else match split_on x r with
           | [] => [ch c]
           | w :: ws => String c w :: ws
           end
  end.

(** [sep.join(l)]. *)
Fixpoint join (sep : string) (l : list string) : string :=
  match l with
  | [] => EmptyString
  | [w] => w
  | w :: ws => w +:+ sep +:+ join sep ws
  end.

(** [s[:n]]. *)
Fixpoint take (n : nat) (s : string) : string :=
  match n, s with
  | S k, String c r => String c (take k r)
  | _, _ => EmptyString
  end.

(** [s.startswith(p)], and the rest of [s] after [p]. *)
Fixpoint strip_prefix (p s : string) : option string :=
  match p, s with
  | EmptyString, _ => Some s
  | String a p', String b s' =>
      if Ascii.eqb a b then strip_prefix p' s' else None
  | _, _ => None
  end.

(** [p in s] for strings. *)
Fixpoint contains (p s : string) : bool :=
  match strip_prefix p s with
  | Some _ => true
  | None => match s with
            | EmptyString => false
            | String _ r => contains p r
            end
  end.

(** Truth value of a string: non-empty. *)
Definition truthy (s : string) : bool :=
  match s with EmptyString => false | _ => true end.

(** The maximal runs of characters that are not white space. *)
Fixpoint words (cur : string) (s : string) : list string :=
  match s with
  | EmptyString => if truthy cur then [cur] else []
  | String c r =>
      if is_space c
      then if truthy cur then cur :: words EmptyString r else words EmptyString r
      else words (cur +:+ ch c) r
  end.

(** [s.split()] *)
Definition split (s : string) : list string := words EmptyString s.

End Str.

(** ** Python numbers *)

(** [price_value] starts as the [int] 0 and is otherwise a [float].  Both
    print differently in an f-string, so the model keeps them apart. *)
Inductive PyNum : Type :=
| PyInt (n : Z)
| PyFloat (hundredths : Z).

Module Num.

(** The numeric value in hundredths, as compared by [<], [>] and [max]. *)
Definition value (x : PyNum) : Z :=
  match x with
  | PyInt n => 100 * n
  | PyFloat h => h
  end.

Definition digit_val (c : ascii) : Z := Z.of_nat (Str.code c) - 48.

Fixpoint digits_val (acc : Z) (s : string) : Z :=
  match s with
  | EmptyString => acc
  | String c r => digits_val (10 * acc + digit_val c) r
  end.

(** [float(s)] for the literals the price patterns produce once the
    commas are removed: digits, or digits followed by a dot and two
    digits.  [None] stands for [ValueError]. *)
Definition float (s : string) : option Z :=
  match Str.partition "." s with
  | None =>
      if Str.truthy s && Str.all Str.is_digit s
      then Some (100 * digits_val 0 s) else None
  | Some (i, f) =>
      if Str.truthy i && Str.all Str.is_digit i
         && Str.all Str.is_digit f && (String.length f =? 2)%nat
      then Some (100 * digits_val 0 i + digits_val 0 f) else None
  end.

Definition digit_char (d : Z) : ascii := ascii_of_nat (Z.to_nat d + 48).

Fixpoint nat_digits (fuel : nat) (n : Z) (acc : string) : string :=
  match fuel with
  | O => acc
  | S k =>
      let acc' := String (digit_char (n mod 10)) acc in
      if n <? 10 then acc' else nat_digits k (n / 10) acc'
  end.

(** [str(n)] for a non-negative integer. *)
Definition str_int (n : Z) : string :=
  nat_digits (S (Z.to_nat (Z.log2 n))) n EmptyString.

(** [f"{x}"]: [repr] of an int, and of a float below 10^13, the shortest
    decimal that reads back: one fractional digit unless two are needed. *)
Definition str (x : PyNum) : string :=
  match x with
  | PyInt n => str_int n
  | PyFloat h =>
      let f := h mod 100 in
      str_int (h / 100) +:+ "." +:+
      (if f mod 10 =? 0 then Str.ch (digit_char (f / 10))
       else String (digit_char (f / 10)) (Str.ch (digit_char (f mod 10))))
  end.

(** Digits with a comma between groups of three, from the right. *)
Fixpoint group3 (l : list ascii) : list ascii :=
  match l with
  | a :: b :: c :: ((_ :: _) as r) => a :: b :: c :: "," %char :: group3 r
  | _ => l
  end.

(** [f"{x:,.2f}"]. *)
Definition format_comma_2f (x : PyNum) : string :=
  let h := value x in
  let i := list_ascii_of_string (str_int (h / 100)) in
  string_of_list_ascii (rev (group3 (rev i))) +:+ "." +:+
  String (digit_char ((h mod 100) / 10)) (Str.ch (digit_char (h mod 10))).

End Num.

(** ** Regular expressions of the source *)

(** An item of the list [re.findall] returns: the text of the group for a
    pattern with one group, the pair of texts for a pattern with two. *)
Inductive re_match : Type :=
| MStr (g : string)
| MTuple (g1 g2 : string).

Module Re.

(** A compiled pattern, tried at the start of a text: the groups of the
    match and the text left after it. *)
Definition matcher : Type := string -> option (re_match * string).

(** [\d{0,n}], greedy. *)
Fixpoint digits_upto (n : nat) (s : string) : string * string :=
  match n, s with
  | S k, String c r =>
      if Str.is_digit c
      then let (d, r') := digits_upto k r in (String c d, r')
      else (EmptyString, s)
  | _, _ => (EmptyString, s)
  end.

(** [\d*], greedy. *)
Fixpoint digits_star (s : string) : string * string :=
  match s with
  | String c r =>
      if Str.is_digit c
      then let (d, r') := digits_star r in (String c d, r')
      else (EmptyString, s)
  | EmptyString => (EmptyString, s)
  end.

(** [(?:,\d{3})*], greedy. *)
Fixpoint comma_groups (s : string) : string * string :=
  match s with
  | String x (String a (String b (String c r))) =>
      if Ascii.eqb x "," && Str.is_digit a && Str.is_digit b && Str.is_digit c
      then let (g, r') := comma_groups r in
           (String x (String a (String b (String c g))), r')
      else (EmptyString, s)
  | _ => (EmptyString, s)
  end.

(** [(?:\.\d{2})?], greedy. *)
Definition fraction (s : string) : string * string :=
  match s with
  | String x (String a (String b r)) =>
      if Ascii.eqb x "." && Str.is_digit a && Str.is_digit b
      then (String x (String a (String b EmptyString)), r)
      else (EmptyString, s)
  | _ => (EmptyString, s)
  end.

(** [\d{1,3}(?:,\d{3})*(?:\.\d{2})?] *)
Definition amount (s : string) : option (string * string) :=
  let (d, r1) := digits_upto 3 s in
  if Str.truthy d then
    let (g, r2) := comma_groups r1 in
    let (f, r3) := fraction r2 in
    Some (d +:+ g +:+ f, r3)
  else None.

(** [\d+(?:,\d{3})*] *)
Definition integer (s : string) : option (string * string) :=
  let (d, r1) := digits_star s in
  if Str.truthy d then
    let (g, r2) := comma_groups r1 in Some (d +:+ g, r2)
  else None.

(** [\s*] *)
Definition spaces (s : string) : string := Str.lstrip_by Str.is_space s.

(** A literal under [re.IGNORECASE]. *)
Fixpoint literal_i (p s : string) : option string :=
  match p, s with
  | EmptyString, _ => Some s
  | String a p', String b s' =>
      if Ascii.eqb (Str.lower a) (Str.lower b) then literal_i p' s' else None
  | _, _ => None
  end.

(** [\$(\d{1,3}(?:,\d{3})*(?:\.\d{2})?)] *)
Definition dollar_amount : matcher := fun s =>
  match s with
  | String c r =>
      if Ascii.eqb c "$" then
        match amount r with
        | Some (g, rest) => Some (MStr g, rest)
        | None => None
        end
      else None
  | EmptyString => None
  end.

(** [(\d{1,3}(?:,\d{3})*(?:\.\d{2})?)\s*cycles?] *)
Definition cycles_amount : matcher := fun s =>
  match amount s with
  | Some (g, r) =>
      match literal_i "cycle" (spaces r) with
      | Some r' =>
          Some (MStr g, match literal_i "s" r' with Some r'' => r'' | None => r' end)
      | None => None
      end
  | None => None
  end.

(** A pattern [(N)\s*-\s*(N)] for a number pattern [N]. *)
Definition range_of (number : string -> option (string * string)) : matcher :=
  fun s =>
    match number s with
    | Some (g1, r) =>
        match spaces r with
        | String c r' =>
            if Ascii.eqb c "-" then
              match number (spaces r') with
              | Some (g2, rest) => Some (MTuple g1 g2, rest)
              | None => None
              end
            else None
        | EmptyString => None
        end
    | None => None
    end.

(** The third price pattern of [_extract_bounty_data]: two groups of
    [integer] around a dash. *)
Definition integer_range : matcher := range_of integer.

(** [(\d{1,3}(?:,\d{3})*(?:\.\d{2})?)\s*-\s*(\d{1,3}(?:,\d{3})*(?:\.\d{2})?)] *)
Definition amount_range : matcher := range_of amount.

(** The scan of [re.findall]: try the pattern at every position from the
    left; after a match, go on where it ended.  [skip] counts the
    characters of the last match still to pass over. *)
Fixpoint scan (m : matcher) (skip : nat) (s : string) {struct s} : list re_match :=
  match s with
  | EmptyString => []
  | String _ r =>
      match skip with
      | S k => scan m k r
      | O =>
          match m s with
          | Some (g, rest) =>
              g :: scan m (String.length r - String.length rest) r
          | None => scan m 0 r
          end
      end
  end.

Definition findall (m : matcher) (s : string) : list re_match := scan m 0 s.

End Re.

(** ** MD5 (RFC 1321), as [hashlib.md5(data).hexdigest()] *)

Module Md5.

Definition w32 (x : Z) : Z := x mod 2 ^ 32.

Definition rotl (x n : Z) : Z :=
  w32 (Z.lor (Z.shiftl x n) (Z.shiftr x (32 - n))).

Definition not32 (x : Z) : Z := Z.lxor x 0xffffffff.

(** The sine table: entry [i] is the integer part of [2^32 * |sin (i + 1)|]. *)
Definition K : list Z :=
  [
    0xd76aa478; 0xe8c7b756; 0x242070db; 0xc1bdceee;
    0xf57c0faf; 0x4787c62a; 0xa8304613; 0xfd469501;
    0x698098d8; 0x8b44f7af; 0xffff5bb1; 0x895cd7be;
    0x6b901122; 0xfd987193; 0xa679438e; 0x49b40821;
    0xf61e2562; 0xc040b340; 0x265e5a51; 0xe9b6c7aa;
    0xd62f105d; 0x02441453; 0xd8a1e681; 0xe7d3fbc8;
    0x21e1cde6; 0xc33707d6; 0xf4d50d87; 0x455a14ed;
    0xa9e3e905; 0xfcefa3f8; 0x676f02d9; 0x8d2a4c8a;
    0xfffa3942; 0x8771f681; 0x6d9d6122; 0xfde5380c;
    0xa4beea44; 0x4bdecfa9; 0xf6bb4b60; 0xbebfbc70;
    0x289b7ec6; 0xeaa127fa; 0xd4ef3085; 0x04881d05;
    0xd9d4d039; 0xe6db99e5; 0x1fa27cf8; 0xc4ac5665;
    0xf4292244; 0x432aff97; 0xab9423a7; 0xfc93a039;
    0x655b59c3; 0x8f0ccc92; 0xffeff47d; 0x85845dd1;
    0x6fa87e4f; 0xfe2ce6e0; 0xa3014314; 0x4e0811a1;
    0xf7537e82; 0xbd3af235; 0x2ad7d2bb; 0xeb86d391 ].

(** The rotation of each of the 64 steps. *)
Definition shifts : list Z :=
  [ 7; 12; 17; 22; 7; 12; 17; 22; 7; 12; 17; 22; 7; 12; 17; 22;
    5; 9; 14; 20; 5; 9; 14; 20; 5; 9; 14; 20; 5; 9; 14; 20;
    4; 11; 16; 23; 4; 11; 16; 23; 4; 11; 16; 23; 4; 11; 16; 23;
    6; 10; 15; 21; 6; 10; 15; 21; 6; 10; 15; 21; 6; 10; 15; 21 ].

Record state : Type := State { sa : Z; sb : Z; sc : Z; sd : Z }.

Definition init : state :=
  State 0x67452301 0xefcdab89 0x98badcfe 0x10325476.

(** One of the 64 steps on the block [m] of sixteen words. *)
Definition step (m : list Z) (st : state) (i : nat) : state :=
  let '(State a b c d) := st in
  let iz := Z.of_nat i in
  let '(f, g) :=
    if iz <? 16 then (Z.lor (Z.land b c) (Z.land (not32 b) d), iz)
    else if iz <? 32 then
      (Z.lor (Z.land d b) (Z.land (not32 d) c), (5 * iz + 1) mod 16)
    else if iz <? 48 then (Z.lxor b (Z.lxor c d), (3 * iz + 5) mod 16)
    else (Z.lxor c (Z.lor b (not32 d)), (7 * iz) mod 16) in
  let f' := w32 (f + a + nth i K 0 + nth (Z.to_nat g) m 0) in
  State d (w32 (b + rotl f' (nth i shifts 0))) b c.

Definition block (st : state) (m : list Z) : state :=
  let '(State a b c d) := fold_left (step m) (seq 0 64) st in
  State (w32 (sa st + a)) (w32 (sb st + b)) (w32 (sc st + c)) (w32 (sd st + d)).

(** Little-endian bytes of a word, and back. *)
Fixpoint le_bytes (n : nat) (x : Z) : list Z :=
  match n with
  | O => []
  | S k => x mod 256 :: le_bytes k (x / 256)
  end.

Fixpoint words (fuel : nat) (bytes : list Z) : list Z :=
  match fuel, bytes with
  | S k, b0 :: b1 :: b2 :: b3 :: r =>
      (b0 + 256 * b1 + 65536 * b2 + 16777216 * b3) :: words k r
  | _, _ => []
  end.

(** The message, a 1 bit, zeros up to 56 modulo 64, and the length in
    bits on eight bytes. *)
Definition pad (bytes : list Z) : list Z :=
  let n := Z.of_nat (length bytes) in
  bytes ++ [128] ++ repeat 0 (Z.to_nat ((55 - n) mod 64))
        ++ le_bytes 8 ((8 * n) mod 2 ^ 64).

Fixpoint blocks (fuel : nat) (ws : list Z) (st : state) : state :=
  match fuel with
  | O => st
  | S k =>
      match ws with
      | [] => st
      | _ => blocks k (skipn 16 ws) (block st (firstn 16 ws))
      end
  end.

Definition hex_digit (d : Z) : ascii :=
  ascii_of_nat (Z.to_nat (if d <? 10 then d + 48 else d + 87)).

Definition hex_byte (b : Z) : string :=
  String (hex_digit (b / 16)) (String (hex_digit (b mod 16)) EmptyString).

Definition bytes_of (s : string) : list Z :=
  map (fun c => Z.of_nat (nat_of_ascii c)) (list_ascii_of_string s).

Definition hexdigest (s : string) : string :=
  let padded := pad (bytes_of s) in
  let ws := words (length padded) padded in
  let '(State a b c d) := blocks (length ws) ws init in
  String.concat EmptyString
    (map hex_byte (le_bytes 4 a ++ le_bytes 4 b ++ le_bytes 4 c ++ le_bytes 4 d)).

End Md5.

(** ** [urllib.parse.urljoin] *)

(** The library function on ASCII text.  [None] stands for the [ValueError]
    of an authority with one square bracket and not the other.  The check
    of what stands between two brackets (an IP literal), which newer
    versions of the library add, is not modelled. *)
Module Url.

Definition uses_relative : list string :=
  [ ""; "ftp"; "http"; "gopher"; "nntp"; "imap"; "wais"; "file"; "https";
    "shttp"; "mms"; "prospero"; "rtsp"; "rtspu"; "sftp"; "svn"; "svn+ssh";
    "ws"; "wss" ].

Definition uses_netloc : list string :=
  [ ""; "ftp"; "http"; "gopher"; "nntp"; "telnet"; "imap"; "wais"; "file";
    "mms"; "https"; "shttp"; "snews"; "prospero"; "rtsp"; "rtspu"; "rsync";
    "svn"; "svn+ssh"; "sftp"; "nfs"; "git"; "git+ssh"; "ws"; "wss" ].

Definition uses_params : list string :=
  [ ""; "ftp"; "hdl"; "prospero"; "http"; "imap"; "https"; "shttp"; "rtsp";
    "rtspu"; "sip"; "sips"; "mms"; "sftp"; "tel" ].

Definition mem (s : string) (l : list string) : bool :=
  existsb (String.eqb s) l.

Definition scheme_char (c : ascii) : bool :=
  Str.is_alpha c || Str.is_digit c || Str.contains_char c "+-.".

Definition c0_or_space (c : ascii) : bool := (Str.code c <=? 32)%nat.

(** The tab, carriage return and line feed are removed everywhere. *)
Definition remove_unsafe (s : string) : string :=
  Str.remove_char (ascii_of_nat 10)
    (Str.remove_char (ascii_of_nat 13) (Str.remove_char (ascii_of_nat 9) s)).

Record parts : Type := Parts {
  scheme : string;
  netloc : string;
  path : string;
  params : string;
  query : string;
  fragment : string
}.

(** The scheme before the first colon, when the text before it starts
    with a letter and is made of scheme characters. *)
Definition split_scheme (default url : string) : string * string :=
  match Str.partition ":" url with
  | Some (String c0 p, rest) =>
      if Str.is_alpha c0 && Str.all scheme_char (String c0 p)
      then (Str.lower_str (String c0 p), rest)
      else (default, url)
  | _ => (default, url)
  end.

(** [_splitnetloc] after the two slashes: up to the first of [/?#]. *)
Fixpoint span_netloc (s : string) : string * string :=
  match s with
  | EmptyString => (EmptyString, EmptyString)
  | String c r =>
      if Str.contains_char c "/?#" then (EmptyString, s)
      else let (a, b) := span_netloc r in (String c a, b)
  end.

Definition split_once (x : ascii) (s : string) : string * string :=
  match Str.partition x s with
  | Some (a, b) => (a, b)
  | None => (s, EmptyString)
  end.

(** [urlsplit(url, scheme)] *)
Definition urlsplit (url default : string) : option parts :=
  let url := remove_unsafe (Str.lstrip_by c0_or_space url) in
  let default :=
    remove_unsafe (Str.rstrip_by c0_or_space (Str.lstrip_by c0_or_space default)) in
  let (sch, url) := split_scheme default url in
  let authority :=
    match url with
    | String a (String b r) =>
        if Ascii.eqb a "/" && Ascii.eqb b "/" then
          let (n, rest) := span_netloc r in
          if xorb (Str.contains_char "[" n) (Str.contains_char "]" n)
          then None else Some (n, rest)
        else Some (EmptyString, url)
    | _ => Some (EmptyString, url)
    end in
  match authority with
  | None => None
  | Some (n, url) =>
      let (url, frag) := split_once "#" url in
      let (url, q) := split_once "?" url in
      Some (Parts sch n url EmptyString q frag)
  end.

(** [_splitparams]: the parameters start at the first semicolon of the
    last segment of the path. *)
Definition splitparams (url : string) : string * string :=
  match rev (Str.split_on "/" url) with
  | last :: before =>
      match Str.partition ";" last with
      | Some (a, p) => (Str.join "/" (rev (a :: before)), p)
      | None => (url, EmptyString)
      end
  | [] => (url, EmptyString)
  end.

(** [urlparse(url, scheme)] *)
Definition urlparse (url default : string) : option parts :=
  match urlsplit url default with
  | None => None
  | Some p =>
      if mem (scheme p) uses_params && Str.contains_char ";" (path p) then
        let (u, ps) := splitparams (path p) in
        Some (Parts (scheme p) (netloc p) u ps (query p) (fragment p))
      else Some p
  end.

(** [urlunparse(parts)] *)
Definition urlunparse (p : parts) : string :=
  let url := if Str.truthy (params p) then path p +:+ ";" +:+ params p else path p in
  let url :=
    if Str.truthy (netloc p)
       || (Str.truthy (scheme p) && mem (scheme p) uses_netloc
           && negb (String.eqb (Str.take 2 url) "//"))
    then
      let url :=
        if Str.truthy url && negb (String.eqb (Str.take 1 url) "/")
        then "/" +:+ url else url in
      "//" +:+ netloc p +:+ url
    else url in
  let url := if Str.truthy (scheme p) then scheme p +:+ ":" +:+ url else url in
  let url := if Str.truthy (query p) then url +:+ "?" +:+ query p else url in
  if Str.truthy (fragment p) then url +:+ "#" +:+ fragment p else url.

(** [segments[1:-1] = filter(None, segments[1:-1])] *)
Definition drop_empty_middle (segments : list string) : list string :=
  match segments with
  | first :: (_ :: _) as rest =>
      (first :: List.filter Str.truthy (removelast rest)
             ++ [List.last rest EmptyString])%list
  | _ => segments
  end.

(** The loop over the segments: [..] pops, [.] is skipped. *)
Definition resolve (segments : list string) : list string :=
  fold_left
    (fun resolved seg =>
       if String.eqb seg ".." then removelast resolved
       else if String.eqb seg "." then resolved
       else (resolved ++ [seg])%list)
    segments [].

Definition urljoin (base url : string) : option string :=
  if negb (Str.truthy base) then Some url
  else if negb (Str.truthy url) then Some base
  else
    match urlparse base EmptyString with
    | None => None
    | Some b =>
        match urlparse url (scheme b) with
        | None => None
        | Some u =>
            if negb (String.eqb (scheme u) (scheme b))
               || negb (mem (scheme u) uses_relative)
            then Some url
            else if mem (scheme u) uses_netloc && Str.truthy (netloc u)
            then Some (urlunparse u)
            else
              let nl := if mem (scheme u) uses_netloc then netloc b else netloc u in
              if negb (Str.truthy (path u)) && negb (Str.truthy (params u)) then
                Some (urlunparse
                        (Parts (scheme u) nl (path b) (params b)
                           (if Str.truthy (query u) then query u else query b)
                           (fragment u)))
              else
                let base_parts :=
                  let bp := Str.split_on "/" (path b) in
                  if Str.truthy (List.last bp EmptyString) then removelast bp else bp in
                let segments :=
                  if String.eqb (Str.take 1 (path u)) "/"
                  then Str.split_on "/" (path u)
                  else drop_empty_middle (base_parts ++ Str.split_on "/" (path u))%list in
                let resolved :=
                  (resolve segments ++
                   (let l := List.last segments EmptyString in
                    if String.eqb l "." || String.eqb l ".." then [EmptyString] else []))%list in
                let joined := Str.join "/" resolved in
                Some (urlunparse
                        (Parts (scheme u) nl
                           (if Str.truthy joined then joined else "/")
                           (params u) (query u) (fragment u)))
        end
    end.

End Url.

(** ** Documents of [bs4] *)

Module Soup.

(** A page element: a string of text, or a tag with its attribute
    dictionary and contents. *)
#[warnings="-register-all"]
Inductive node : Type :=
| NavigableString (text : string)
| Tag (name : string) (attrs : list (string * string)) (contents : list node).

(** A tag inside a document, with the chain of its parents, nearest
    first. *)
Record element : Type := Element { parents : list node; self : node }.

(** [tag.get(key)] *)
Definition get (key : string) (n : node) : option string :=
  match n with
  | Tag _ attrs _ => snd <$> List.find (fun kv => String.eqb (fst kv) key) attrs
  | NavigableString _ => None
  end.

Definition name_of (n : node) : option string :=
  match n with
  | Tag name _ _ => Some name
  | NavigableString _ => None
  end.

(** The value of [class] is kept as the list of its words. *)
Definition classes (n : node) : list string :=
  match get "class" n with
  | Some v => Str.split v
  | None => []
  end.

(** The CSS selectors the source uses: a tag name, [.c], and
    [tag[attr*="v"]] with the tag name optional. *)
Inductive selector : Type :=
| ByName (name : string)
| ByClass (c : string)
| AttrContains (name : option string) (attr v : string).

Definition matches (sel : selector) (n : node) : bool :=
  match n with
  | NavigableString _ => false
  | Tag name _ _ =>
      match sel with
      | ByName x => String.eqb name x
      | ByClass c => existsb (String.eqb c) (classes n)
      | AttrContains x attr v =>
          match x with Some x => String.eqb name x | None => true end
          && match get attr n with
             | Some value =>
                 Str.contains v
                   (if String.eqb attr "class" then Str.join " " (Str.split value)
                    else value)
             | None => false
             end
      end
  end.

(** The tags of a subtree in document order, the root first. *)
Fixpoint subtree (up : list node) (n : node) : list element :=
  match n with
  | NavigableString _ => []
  | Tag _ _ cs => Element up n :: flat_map (subtree (n :: up)) cs
  end.

Definition descendants (e : element) : list element :=
  match self e with
  | NavigableString _ => []
  | Tag _ _ cs => flat_map (subtree (self e :: parents e)) cs
  end.

(** [soup.select(sel)] on the parsed document. *)
Definition select (sel : selector) (doc : list node) : list element :=
  List.filter (fun e => matches sel (self e)) (flat_map (subtree []) doc).

(** [element.select_one(sel)] *)
Definition select_one (sel : selector) (e : element) : option element :=
  List.find (fun d => matches sel (self d)) (descendants e).

(** [element.find(name)] *)
Definition find (name : string) (e : element) : option node :=
  self <$> select_one (ByName name) e.

(** [element.find_parent(name)] *)
Definition find_parent (name : string) (e : element) : option node :=
  List.find (matches (ByName name)) (parents e).

(** The strings of a subtree in document order. *)
Fixpoint strings (n : node) : list string :=
  match n with
  | NavigableString s => [s]
  | Tag _ _ cs => flat_map strings cs
  end.

(** [element.get_text()] *)
Definition get_text (n : node) : string :=
  String.concat EmptyString (strings n).

(** [element.get_text(strip=True)] *)
Definition get_text_strip (n : node) : string :=
  String.concat EmptyString (List.filter Str.truthy (map Str.strip (strings n))).

End Soup.

(** ** The environment of a request *)

(** What a call of [requests.get] or [requests.post] does: it raises, or
    it returns a response. *)
Inductive http_result : Type :=
| Raises
| Response (status_code : Z) (text : string).

(** A bounty: the dictionary with the keys [id], [title], [price], [link],
    [posted_time] and [raw_text]. *)
Record Bounty : Type := mkBounty {
  bounty_id : string;
  title : string;
  price : PyNum;
  link : string;
  posted_time : string;
  raw_text : string
}.

(** Everything a request reads from outside the process.  The clock is
    read once per request.  [BeautifulSoup] is the constructor of the
    document with the parser [html.parser]: [None] when the parser rejects
    the markup and the constructor raises. *)
Record Env : Type := mkEnv {
  requests_get : string -> http_result;
  BeautifulSoup : string -> option (list Soup.node);
  now_isoformat : string;
  today : string;
  getenv : string -> option string;
  requests_post : string -> Bounty -> http_result
}.

(** ** ReplitBountyScraper *)

Import Soup.

Definition bounty_selectors : list selector :=
  [ AttrContains (Some "div") "data-testid" "bounty";
    ByClass "bounty-card";
    ByClass "service-card";
    AttrContains None "class" "bounty";
    AttrContains None "class" "service" ].

Definition title_selectors : list selector :=
  [ ByName "h1"; ByName "h2"; ByName "h3"; ByClass "title";
    AttrContains None "class" "title" ].

(** The loop over [title_selectors]: the text of the first element a
    selector finds. *)
Fixpoint title_of (sels : list selector) (e : element) : string :=
  match sels with
  | [] => "Unknown Title"
  | sel :: rest =>
      match select_one sel e with
      | Some t => get_text_strip (self t)
      | None => title_of rest e
      end
  end.

(** [len(m)] and [m[i]] on an item of [findall]: on a pair, its size and
    components; on a string, its length and characters. *)
Definition len (m : re_match) : nat :=
  match m with
  | MStr g => String.length g
  | MTuple _ _ => 2
  end.

Definition item (m : re_match) (i : nat) : option string :=
  match m with
  | MStr g => Str.ch <$> String.get i g
  | MTuple g1 g2 => nth_error [g1; g2] i
  end.

Definition float_nocomma (s : string) : option Z :=
  Num.float (Str.remove_char "," s).

(** The body of the [try] in the price loop of [_extract_bounty_data], on
    [matches[0]].  [None]: the [ValueError] that moves on to the next
    pattern. *)
Definition price_of_first (m : re_match) : option Z :=
  if (len m =? 2)%nat then
    match item m 0, item m 1 with
    | Some a, Some b =>
        match float_nocomma a, float_nocomma b with
        | Some x, Some y => Some (Z.max x y)
        | _, _ => None
        end
    | _, _ => None
    end
  else
    match m with
    | MStr g => float_nocomma g
    | MTuple _ _ => None
    end.

Definition price_patterns : list Re.matcher :=
  [ Re.dollar_amount; Re.cycles_amount; Re.integer_range ].

(** The loop over [price_patterns]. *)
Fixpoint price_of (patterns : list Re.matcher) (element_text : string) : PyNum :=
  match patterns with
  | [] => PyInt 0
  | pattern :: rest =>
      match Re.findall pattern element_text with
      | [] => price_of rest element_text
      | m :: _ =>
          match price_of_first m with
          | Some v => PyFloat v
          | None => price_of rest element_text
          end
      end
  end.

(** The link of an element: [None] when [urljoin] raises. *)
Definition link_of (e : element) (base_url : string) : option string :=
  let link_elem :=
    match find "a" e with
    | Some a => Some a
    | None => find_parent "a" e
    end in
  match link_elem with
  | Some a =>
      match get "href" a with
      | Some href => if Str.truthy href then Url.urljoin base_url href else Some EmptyString
      | None => Some EmptyString
      end
  | None => Some EmptyString
  end.

(** [_extract_bounty_data(element, base_url)]; [None] when the body
    raises. *)
Definition _extract_bounty_data (env : Env) (e : element) (base_url : string)
  : option Bounty :=
  let title := title_of title_selectors e in
  let element_text := get_text (self e) in
  let price_value := price_of price_patterns element_text in
  match link_of e base_url with
  | None => None
  | Some link =>
      Some (mkBounty (Md5.hexdigest (title +:+ Num.str price_value +:+ link))
              title price_value link (now_isoformat env)
              (Str.take 200 element_text))
  end.

(** The body of the [try] for one match in [_extract_from_text]. *)
Definition price_of_text_match (m : re_match) : option Z :=
  match m with
  | MTuple a b =>
      match float_nocomma a, float_nocomma b with
      | Some x, Some y => Some (Z.max x y)
      | _, _ => None
      end
  | MStr g => float_nocomma g
  end.

Definition text_patterns : list Re.matcher :=
  [ Re.dollar_amount; Re.amount_range ].

Definition text_bounty (env : Env) (url : string) (v : Z) : Bounty :=
  let price_value := PyFloat v in
  mkBounty (Md5.hexdigest ("extracted_" +:+ Num.str price_value +:+ "_" +:+ url))
    ("Replit Service/Bounty - $" +:+ Num.format_comma_2f price_value)
    price_value url (now_isoformat env) "Extracted from page content".

(** [_extract_from_text(html_content, url)] *)
Definition _extract_from_text (env : Env) (html_content url : string) : list Bounty :=
  flat_map
    (fun pattern =>
       flat_map
         (fun m =>
            match price_of_text_match m with
            | Some v => if 0 <? v then [text_bounty env url v] else []
            | None => []
            end)
         (Re.findall pattern html_content))
    text_patterns.

(** [_filter_recent_bounties(bounties)]: every bounty is appended to the
    result. *)
Definition _filter_recent_bounties (bounties : list Bounty) : list Bounty :=
  fold_left (fun recent_bounties bounty => (recent_bounties ++ [bounty])%list)
    bounties [].

(** [_get_sample_bounties()] *)
Definition _get_sample_bounties (env : Env) : list Bounty :=
  [ mkBounty (Md5.hexdigest ("sample1_" +:+ today env))
      "Build a React Dashboard for Analytics" (PyFloat 250000)
      "https://replit.com/bounties/sample1" (now_isoformat env)
      "Sample bounty for testing purposes";
    mkBounty (Md5.hexdigest ("sample2_" +:+ today env))
      "Create a Discord Bot with Python" (PyFloat 150000)
      "https://replit.com/bounties/sample2" (now_isoformat env)
      "Sample bounty for testing purposes";
    mkBounty (Md5.hexdigest ("sample3_" +:+ today env))
      "Develop a Mobile App with Flutter" (PyFloat 500000)
      "https://replit.com/bounties/sample3" (now_isoformat env)
      "Sample bounty for testing purposes" ].

(** The bounties of the elements of one selector; an element whose
    extraction raises gives none. *)
Definition bounties_of (env : Env) (url : string) (elements : list element)
  : list Bounty :=
  omap (fun e => _extract_bounty_data env e url) elements.

(** The loop over [bounty_selectors], left at the first selector that
    selects an element. *)
Fixpoint structured (env : Env) (sels : list selector) (soup : list node)
  (url : string) : list Bounty :=
  match sels with
  | [] => []
  | sel :: rest =>
      match select sel soup with
      | [] => structured env rest soup url
      | bounty_elements => bounties_of env url bounty_elements
      end
  end.

(** [_parse_bounties(html_content, url)].  When the constructor of the
    document raises, the [except] of the function logs the error and
    returns no bounty. *)
Definition _parse_bounties (env : Env) (html_content url : string) : list Bounty :=
  match BeautifulSoup env html_content with
  | None => []
  | Some soup =>
      let bounties := structured env bounty_selectors soup url in
      let bounties :=
        match bounties with
        | [] => _extract_from_text env html_content url
        | _ => bounties
        end in
      _filter_recent_bounties bounties
  end.

Definition urls_to_try : list string :=
  [ "https://replit.com/bounties?status=open&order=creationDateDescending";
    "https://replit.com/bounties";
    "https://replit.com/site/bounties" ].

(** The loop over [urls_to_try]: the parse of the first response with
    status 200, if there is one. *)
Fixpoint first_page (env : Env) (urls : list string) : option (list Bounty) :=
  match urls with
  | [] => None
  | url :: rest =>
      match requests_get env url with
      | Response status text =>
          if status =? 200 then Some (_parse_bounties env text url)
          else first_page env rest
      | Raises => first_page env rest
      end
  end.

(** [scrape_bounties()] *)
Definition scrape_bounties (env : Env) : list Bounty :=
  match first_page env urls_to_try with
  | Some bounties => bounties
  | None => _get_sample_bounties env
  end.

(** ** The state of the process and of the storage file *)

(** The content of [/tmp/sent_bounties.json]: text that [json.load] or the
    reading of the object rejects, or an object with the key
    [last_updated] and, the file not being written by this program only,
    perhaps the key [sent_bounties]. *)
Inductive file : Type :=
| Unreadable
| Json (sent : option (list string)) (last_updated : string).

(** How a save fails: [open] raises and the file is as it was, or the
    file is opened, which empties it, and the writing raises, which leaves
    a text cut short. *)
Inductive write_failure : Type :=
| Open_fails
| Write_fails.

(** The file, if it exists; whether a save succeeds; and how it fails when
    it does not. *)
Record Disk : Type := mkDisk {
  storage_file : option file;
  writable : bool;
  failure : write_failure
}.

(** The global [tracker] and the disk. *)
Record World : Type := mkWorld {
  sent_bounties : gset string;
  disk : Disk
}.

(** Code that reads and writes the world. *)
Definition M (A : Type) : Type := World -> A * World.

Definition ret {A} (a : A) : M A := fun w => (a, w).

Definition bind {A B} (m : M A) (k : A -> M B) : M B :=
  fun w => let (a, w') := m w in k a w'.

Notation "'do' x <- m 'in' k" := (bind m (fun x => k))
  (at level 10, x name, m at level 100, k at level 200).

Definition gets {A} (f : World -> A) : M A := fun w => (f w, w).

Definition modify (f : World -> World) : M unit := fun w => (tt, f w).

(** ** BountyTracker *)

Definition set_sent (s : gset string) (w : World) : World :=
  mkWorld s (disk w).

Definition write_file (f : file) (w : World) : World :=
  mkWorld (sent_bounties w)
    (mkDisk (Some f) (writable (disk w)) (failure (disk w))).

(** [load_sent_bounties()]: a missing file leaves the set as it is, a file
    that cannot be read empties it. *)
Definition load_sent_bounties : M unit :=
  modify (fun w =>
    match storage_file (disk w) with
    | None => w
    | Some (Json data _) => set_sent (list_to_set (default [] data)) w
    | Some Unreadable => set_sent ∅ w
    end).

(** [save_sent_bounties()]: a save that fails is logged and nothing
    else; the file is as it was when [open] raised, and holds a text that
    cannot be read when the writing raised after [open] had emptied it. *)
Definition save_sent_bounties (env : Env) : M unit :=
  modify (fun w =>
    if writable (disk w)
    then write_file (Json (Some (elements (sent_bounties w))) (now_isoformat env)) w
    else
      match failure (disk w) with
      | Open_fails => w
      | Write_fails => write_file Unreadable w
      end).

(** [is_bounty_sent(bounty_id)] *)
Definition is_bounty_sent (id : string) : M bool :=
  gets (fun w => bool_decide (id ∈ sent_bounties w)).

(** [mark_bounty_sent(bounty_id)] *)
Definition mark_bounty_sent (env : Env) (id : string) : M unit :=
  do _ <- modify (fun w => set_sent ({[id]} ∪ sent_bounties w) w) in
  save_sent_bounties env.

(** [BountyTracker()]: what a start of the process builds from the disk. *)
Definition BountyTracker (d : Disk) : World :=
  snd (load_sent_bounties (mkWorld ∅ d)).

(** ** SlackNotifier *)

(** [send_bounty_notification(bounty)]: true for a response with status
    200, false for any other and when the call raises. *)
Definition send_bounty_notification (env : Env) (webhook_url : string)
  (bounty : Bounty) : bool :=
  match requests_post env webhook_url bounty with
  | Response status _ => status =? 200
  | Raises => false
  end.

(** ** The endpoints *)

(** What [jsonify] is given, and the status of the response. *)
Inductive json : Type :=
| JStr (s : string)
| JNum (n : nat)
| JBounty (b : Bounty)
| JList (l : list Bounty).

Record response : Type := mkResponse {
  body : list (string * json);
  code : Z
}.

(** [max(l, key=lambda x: x['price'])] from a first element on: a later
    element replaces the best one only when its price is greater. *)
Fixpoint max_from (best : Bounty) (l : list Bounty) : Bounty :=
  match l with
  | [] => best
  | x :: rest =>
      if Num.value (price best) <? Num.value (price x)
      then max_from x rest else max_from best rest
  end.

(** The bounties not sent yet, in the order of the list. *)
Definition unsent (sent : gset string) (bounties : list Bounty) : list Bounty :=
  List.filter (fun b => negb (bool_decide (bounty_id b ∈ sent))) bounties.

(** The choice of [trigger_scrape]: the highest unsent bounty, if any. *)
Definition highest_unsent (sent : gset string) (bounties : list Bounty)
  : option Bounty :=
  match unsent sent bounties with
  | [] => None
  | b :: rest => Some (max_from b rest)
  end.

(** [trigger_scrape()], the handler of [POST /scrape]. *)
Definition trigger_scrape (env : Env) : M response :=
  let bounties := scrape_bounties env in
  match bounties with
  | [] =>
      ret (mkResponse
             [ ("status", JStr "success"); ("message", JStr "No bounties found");
               ("bounties", JList []) ] 200)
  | _ =>
      do unsent_bounties <- gets (fun w => unsent (sent_bounties w) bounties) in
      match unsent_bounties with
      | [] =>
          ret (mkResponse
                 [ ("status", JStr "success");
                   ("message", JStr "No new bounties to send");
                   ("total_bounties", JNum (length bounties));
                   ("new_bounties", JNum 0) ] 200)
      | b :: rest =>
          let highest_bounty := max_from b rest in
          match getenv env "SLACK_WEBHOOK_URL" with
          | Some (String c u) =>
              if send_bounty_notification env (String c u) highest_bounty then
                do _ <- mark_bounty_sent env (bounty_id highest_bounty) in
                ret (mkResponse
                       [ ("status", JStr "success");
                         ("message", JStr "Bounty notification sent successfully");
                         ("bounty", JBounty highest_bounty);
                         ("total_bounties", JNum (length bounties));
                         ("new_bounties", JNum (length unsent_bounties)) ] 200)
              else
                ret (mkResponse
                       [ ("status", JStr "error");
                         ("message", JStr "Failed to send Slack notification");
                         ("bounty", JBounty highest_bounty) ] 500)
          | _ =>
              ret (mkResponse
                     [ ("status", JStr "warning");
                       ("message", JStr "No Slack webhook configured");
                       ("bounty", JBounty highest_bounty);
                       ("total_bounties", JNum (length bounties));
                       ("new_bounties", JNum (length unsent_bounties)) ] 200)
          end
      end
  end.

(** [get_bounties()], the handler of [GET /bounties]. *)
Definition get_bounties (env : Env) : M response :=
  let bounties := scrape_bounties env in
  ret (mkResponse
         [ ("status", JStr "success"); ("bounties", JList bounties);
           ("count", JNum (length bounties));
           ("timestamp", JStr (now_isoformat env)) ] 200).

(** ** The other endpoints *)

(** [s.replace(old, "")] for a non-empty [old]: the occurrences of [old]
    are taken from the left and do not overlap.  [skip] counts the
    characters of the last occurrence still to pass over. *)
Fixpoint remove_all (old : string) (skip : nat) (s : string) {struct s} : string :=
  match s with
  | EmptyString => EmptyString
  | String c r =>
      match skip with
      | S k => remove_all old k r
      | O =>
          match Str.strip_prefix old s with
          | Some _ => remove_all old (String.length old - 1) r
          | None => String c (remove_all old 0 r)
          end
      end
  end.

(** What a handler reads of the request: [request.headers.get]. *)
Record Request : Type := mkRequest {
  headers : string -> option string
}.

(** [daily_webhook()], the handler of [POST /webhook/daily]. *)
Definition daily_webhook (env : Env) (request : Request) : M response :=
  match getenv env "WEBHOOK_TOKEN" with
  | Some (String c t) =>
      let provided_token :=
        remove_all "Bearer " 0 (default EmptyString (headers request "Authorization")) in
      if negb (String.eqb provided_token (String c t))
      then ret (mkResponse [ ("error", JStr "Unauthorized") ] 401)
      else trigger_scrape env
  | _ => trigger_scrape env
  end.

(** The bounty of [test_slack].  Its dictionary has no key [raw_text],
    which [send_bounty_notification] does not read. *)
Definition test_bounty (env : Env) : Bounty :=
  mkBounty "test_bounty" "Test Bounty - API Working!" (PyFloat 100000)
    "https://replit.com/bounties" (now_isoformat env) EmptyString.

(** [test_slack()], the handler of [POST /test-slack]. *)
Definition test_slack (env : Env) : M response :=
  match getenv env "SLACK_WEBHOOK_URL" with
  | Some (String c u) =>
      let success := send_bounty_notification env (String c u) (test_bounty env) in
      ret (mkResponse
             [ ("status", JStr (if success then "success" else "error"));
               ("message",
                JStr (if success then "Test notification sent successfully"
                      else "Failed to send test notification")) ] 200)
  | _ =>
      ret (mkResponse
             [ ("status", JStr "error");
               ("message", JStr "SLACK_WEBHOOK_URL not configured") ] 400)
  end.

(** * The terms of the properties *)

(** The price of a bounty as [max] compares it. *)
Definition value_of (b : Bounty) : Z := Num.value (price b).

Definition is_unsent (sent : gset string) (b : Bounty) : bool :=
  negb (bool_decide (bounty_id b ∈ sent)).

(** The value of a key in the body of a response. *)
Definition field (key : string) (resp : response) : option json :=
  snd <$> List.find (fun kv => String.eqb (fst kv) key) (body resp).

Definition webhook_configured (env : Env) : bool :=
  match getenv env "SLACK_WEBHOOK_URL" with
  | Some (String _ _) => true
  | _ => false
  end.

(** A webhook is configured and the notification of [r] succeeds. *)
Definition delivered (env : Env) (r : Bounty) : bool :=
  match getenv env "SLACK_WEBHOOK_URL" with
  | Some (String c u) => send_bounty_notification env (String c u) r
  | _ => false
  end.

(** The text of a page fetched with status 200. *)
Definition page_text (env : Env) (url : string) : option string :=
  match requests_get env url with
  | Response status text => if status =? 200 then Some text else None
  | Raises => None
  end.

(** What happens to the store while the process runs: calls of the
    methods of the tracker and requests to the two endpoints that run the
    pipeline, each in its own environment. *)
Inductive operation : Type :=
| Call_is_bounty_sent (id : string)
| Call_mark_bounty_sent (env : Env) (id : string)
| Call_save_sent_bounties (env : Env)
| Post_scrape (env : Env)
| Get_bounties (env : Env).

Definition perform (op : operation) (w : World) : World :=
  match op with
  | Call_is_bounty_sent id => snd (is_bounty_sent id w)
  | Call_mark_bounty_sent env id => snd (mark_bounty_sent env id w)
  | Call_save_sent_bounties env => snd (save_sent_bounties env w)
  | Post_scrape env => snd (trigger_scrape env w)
  | Get_bounties env => snd (get_bounties env w)
  end.

Definition perform_all (ops : list operation) (w : World) : World :=
  fold_left (fun w op => perform op w) ops w.

(** The process stops and starts again: the memory is rebuilt from the
    disk. *)
Definition restart (w : World) : World := BountyTracker (disk w).

(** An operation, or the process stopping and starting again. *)
Inductive event : Type :=
| Operation (op : operation)
| Restart.

Definition happen (ev : event) (w : World) : World :=
  match ev with
  | Operation op => perform op w
  | Restart => restart w
  end.

Definition happen_all (evs : list event) (w : World) : World :=
  fold_left (fun w ev => happen ev w) evs w.

(** The id is in memory and in the list the file holds, and the file
    can be written. *)
Definition persisted (id : string) (w : World) : Prop :=
  writable (disk w) = true ∧ id ∈ sent_bounties w
  ∧ ∃ l t, storage_file (disk w) = Some (Json (Some l) t) ∧ id ∈ l.

(** A pattern whose matches all give a price: on each of them the body
    of the [try] of the price loop returns a float that is not negative. *)
Definition decides (pattern : Re.matcher) : Prop :=
  ∀ s m r, pattern s = Some (m, r) → ∃ v, price_of_first m = Some v ∧ 0 <= v.

(** The answer of [daily_webhook] to a request it rejects. *)
Definition unauthorized : response :=
  mkResponse [ ("error", JStr "Unauthorized") ] 401.

(** The file can be written and a restart would give back the set in
    memory. *)
Definition synced (w : World) : Prop :=
  writable (disk w) = true ∧ sent_bounties (restart w) = sent_bounties w.

(** ** Inputs of the examples *)

(** Environments for the examples: the pages are given, the parser
    answers with one document, no webhook is configured. *)
Definition example_env (pages : string -> http_result) (doc : list node) : Env :=
  mkEnv pages (fun _ => Some doc) "2026-01-05T09:00:00" "2026-01-05"
    (fun _ => None) (fun _ _ => Raises).

Definition no_page : string -> http_result := fun _ => Raises.

Definition one_page (html : string) : string -> http_result :=
  fun _ => Response 200 html.

Definition first_url : string :=
  "https://replit.com/bounties?status=open&order=creationDateDescending".

(** A card with a heading, a price and a link. *)
Definition dashboard_card : node :=
  Tag "div" [("class", "bounty-card")]
    [ Tag "h2" [] [NavigableString "Build a Dashboard"];
      NavigableString " $2,500.00 ";
      Tag "a" [("href", "/bounties/42")] [NavigableString "View"] ].

Definition dashboard_html : string :=
  "<div class='bounty-card'><h2>Build a Dashboard</h2> $2,500.00 <a href='/bounties/42'>View</a></div>".

Definition dashboard_env : Env := example_env (one_page dashboard_html) [dashboard_card].

(** The same page read at another time, with a webhook that answers 200. *)
Definition dashboard_env_later : Env :=
  mkEnv (one_page dashboard_html) (fun _ => Some [dashboard_card])
    "2026-02-01T18:30:00" "2026-02-01"
    (fun _ => Some "https://hooks.slack.test/T0") (fun _ _ => Response 200 "ok").

Definition dashboard_bounty (env : Env) : Bounty :=
  mkBounty "f39dbc49af22201d204b499bf4387a46" "Build a Dashboard" (PyFloat 250000)
    "https://replit.com/bounties/42" (now_isoformat env)
    "Build a Dashboard $2,500.00 View".

(** A card whose price has two digits. *)
Definition cheap_card : node :=
  Tag "div" [("class", "bounty-card")]
    [ Tag "h2" [] [NavigableString "Fix my bot"]; NavigableString " $25" ].

(** A card with a range and no other price. *)
Definition budget_card : node :=
  Tag "div" [("class", "service-card")] [NavigableString "Budget 100-500 USD"].

(** A card whose link [urljoin] rejects. *)
Definition broken_link_card : node :=
  Tag "div" [("class", "bounty-card")]
    [ NavigableString "$500 "; Tag "a" [("href", "//[")] [NavigableString "x"] ].

Definition broken_link_html : string :=
  "<div class='bounty-card'>$500 <a href='//['>x</a></div>".

Definition broken_link_env : Env :=
  example_env (one_page broken_link_html) [broken_link_card].

(** A page with no card and no price, fetched with status 200. *)
Definition empty_env : Env := example_env (one_page "") [].

Definition fresh_world : World := mkWorld ∅ (mkDisk None true Open_fails).

(** Bounties for the selector, with the ids of the examples. *)
Definition priced (id : string) (hundredths : Z) : Bounty :=
  mkBounty id "Some bounty" (PyFloat hundredths) "https://replit.com/bounties/1"
    "2026-01-05T09:00:00" "Some bounty".

Definition three_bounties : list Bounty :=
  [ priced "id-1000" 100000; priced "id-2500" 250000; priced "id-1000b" 100000 ].

(** A world where the bounty of the dashboard card is marked. *)
Definition dashboard_sent_world : World :=
  mkWorld {["f39dbc49af22201d204b499bf4387a46"]} (mkDisk None true Open_fails).

(** A storage file with one id, that can be written. *)
Definition saved_disk : Disk :=
  mkDisk (Some (Json (Some ["id-1000"]) "2026-01-05T09:00:00")) true Open_fails.

(** An environment with the token [s3cret], and requests with and without
    the header. *)
Definition token_env : Env :=
  mkEnv (one_page dashboard_html) (fun _ => Some [dashboard_card])
    "2026-02-01T18:30:00" "2026-02-01"
    (fun key => if String.eqb key "WEBHOOK_TOKEN" then Some "s3cret" else None)
    (fun _ _ => Response 200 "ok").

Definition request_with (authorization : option string) : Request :=
  mkRequest (fun key =>
    if String.eqb key "Authorization" then authorization else None).

(** A page with a price whose markup the parser rejects. *)
Definition rejected_html : string := "<![x y]]> $500".

Definition rejected_env : Env :=
  mkEnv (one_page rejected_html) (fun _ => None) "2026-01-05T09:00:00"
    "2026-01-05" (fun _ => None) (fun _ _ => Raises).

(** A disk where the writing fails after [open] has emptied the file. *)
Definition failing_disk : Disk :=
  mkDisk (Some (Json (Some ["id-1000"]) "2026-01-05T09:00:00")) false Write_fails.

(** * Properties *)

(** ** Selection *)

(** A split of a filtered list comes from a split of the list. *)
Lemma filter_split {A} (f : A -> bool) (l : list A) l1 (r : A) l2 :
  List.filter f l = (l1 ++ r :: l2)%list →
  ∃ k1 k2, l = (k1 ++ r :: k2)%list ∧ f r = true
    ∧ List.filter f k1 = l1 ∧ List.filter f k2 = l2.
Proof.
  revert l1. induction l as [|a l IH]; intros l1 Heq; simpl in Heq.
  - by destruct l1.
  - destruct (f a) eqn:Hfa.
    + destruct l1 as [|y l1]; simpl in Heq; injection Heq as Ha Hl.
      * subst a. exists [], l. by rewrite Hfa.
      * subst y. destruct (IH l1 Hl) as (k1 & k2 & -> & Hr & Hk1 & Hk2).
        exists (a :: k1), k2. simpl. by rewrite Hfa, Hk1.
    + destruct (IH l1 Heq) as (k1 & k2 & -> & Hr & Hk1 & Hk2).
      exists (a :: k1), k2. simpl. by rewrite Hfa.
Qed.

Lemma Forall_filter_elim {A} (f : A -> bool) (P : A -> Prop) (k : list A) :
  Forall P (List.filter f k) → ∀ x, In x k → f x = true → P x.
Proof.
  rewrite List.Forall_forall. intros H x Hin Hf. apply H.
  apply filter_In. done.
Qed.

Section Selection.

Implicit Types (b r x : Bounty) (l : list Bounty) (sent : gset string).

Lemma max_from_ge b l : value_of b <= value_of (max_from b l).
Proof.
  revert b. induction l as [|x l IH]; intros b; simpl; [lia|].
  fold (value_of b) (value_of x).
  destruct (Z.ltb_spec (value_of b) (value_of x)) as [Hlt|Hge].
  - specialize (IH x). lia.
  - apply IH.
Qed.

(** [max_from] returns an element of the list, greater than all before
    it, at least as great as all after it. *)
Lemma max_from_split b l :
  ∃ l1 l2, b :: l = (l1 ++ max_from b l :: l2)%list
    ∧ Forall (fun x => value_of x < value_of (max_from b l)) l1
    ∧ Forall (fun x => value_of x <= value_of (max_from b l)) l2.
Proof.
  revert b. induction l as [|x l IH]; intros b; simpl.
  - exists [], []. repeat split; constructor.
  - fold (value_of b) (value_of x).
    destruct (Z.ltb_spec (value_of b) (value_of x)) as [Hlt|Hge].
    + destruct (IH x) as (l1 & l2 & Heq & H1 & H2).
      exists (b :: l1), l2. split; [simpl; by rewrite Heq|].
      split; [|done]. constructor; [|done].
      pose proof (max_from_ge x l). lia.
    + destruct (IH b) as (l1 & l2 & Heq & H1 & H2).
      destruct l1 as [|y l1]; simpl in Heq.
      * injection Heq as Hb Hl. exists [], (x :: l2).
        split; [simpl; by rewrite <- Hb, Hl|]. split; [constructor|].
        constructor; [rewrite <- Hb; lia | done].
      * injection Heq as Hy Hl. subst y.
        exists (b :: x :: l1), l2.
        split; [simpl; by rewrite <- Hl|]. split; [|done].
        pose proof (Forall_inv H1) as Hb. simpl in Hb. apply Forall_inv_tail in H1.
        constructor; [done|]. constructor; [lia | done].
Qed.

Lemma is_unsent_true sent b : is_unsent sent b = true ↔ bounty_id b ∉ sent.
Proof.
  unfold is_unsent. rewrite negb_true_iff, bool_decide_eq_false. done.
Qed.

(** The bounty [trigger_scrape] answers with is the choice of
    [highest_unsent]. *)
Lemma trigger_scrape_chooses env w :
  field "bounty" (fst (trigger_scrape env w))
  = JBounty <$> highest_unsent (sent_bounties w) (scrape_bounties env).
Proof.
  unfold trigger_scrape, highest_unsent.
  destruct (scrape_bounties env) as [|b0 l0] eqn:Hs; [done|].
  unfold bind, gets.
  destruct (unsent (sent_bounties w) (b0 :: l0)) as [|b rest]; [done|].
  destruct (getenv env "SLACK_WEBHOOK_URL") as [[|c u]|]; [done| |done].
  destruct (send_bounty_notification env (String c u) (max_from b rest)); [|done].
  unfold ret. by destruct (mark_bounty_sent env _ w).
Qed.

Lemma highest_unsent_unsent sent l r :
  highest_unsent sent l = Some r → bounty_id r ∉ sent.
Proof.
  unfold highest_unsent, unsent. fold (is_unsent sent).
  destruct (List.filter (is_unsent sent) l) as [|b rest] eqn:Hf; [done|].
  intros [= <-].
  destruct (max_from_split b rest) as (l1 & l2 & Heq & _).
  apply is_unsent_true.
  assert (Hin : In (max_from b rest) (List.filter (is_unsent sent) l)).
  { rewrite Hf, Heq. apply in_elt. }
  by apply filter_In in Hin as [_ ?].
Qed.

(** C2. The selector keeps the bounties whose id the store does not
    hold.  When none is left it selects nothing.  Otherwise it selects
    one of them, of maximal price, and the first such in the order of
    the input: every unsent bounty before it is cheaper, every unsent
    bounty after it is not dearer.  The bounty in the answer of
    [trigger_scrape] is this selection. *)
Theorem highest_unsent_is_first_maximum sent l :
  (∀ env w,
     field "bounty" (fst (trigger_scrape env w))
     = JBounty <$> highest_unsent (sent_bounties w) (scrape_bounties env))
  ∧
  match highest_unsent sent l with
  | None => ∀ b, In b l → bounty_id b ∈ sent
  | Some r =>
      ∃ k1 k2, l = (k1 ++ r :: k2)%list
        ∧ (bounty_id r ∉ sent)
        ∧ (∀ x, In x k1 → bounty_id x ∉ sent → value_of x < value_of r)
        ∧ (∀ x, In x k2 → bounty_id x ∉ sent → value_of x <= value_of r)
  end.
Proof.
  split; [apply trigger_scrape_chooses|].
  unfold highest_unsent, unsent. fold (is_unsent sent).
  destruct (List.filter (is_unsent sent) l) as [|b rest] eqn:Hf.
  - intros b Hin. destruct (decide (bounty_id b ∈ sent)) as [|Hn]; [done|].
    assert (Hb : In b (List.filter (is_unsent sent) l)).
    { apply filter_In. split; [done | by apply is_unsent_true]. }
    rewrite Hf in Hb. destruct Hb.
  - destruct (max_from_split b rest) as (l1 & l2 & Heq & H1 & H2).
    rewrite Heq in Hf.
    destruct (filter_split _ _ _ _ _ Hf) as (k1 & k2 & -> & Hr & Hk1 & Hk2).
    exists k1, k2. split; [done|]. split; [by apply is_unsent_true|].
    rewrite <- Hk1 in H1. rewrite <- Hk2 in H2.
    split; intros x Hin Hx.
    + apply (Forall_filter_elim _ _ _ H1 x Hin). by apply is_unsent_true.
    + apply (Forall_filter_elim _ _ _ H2 x Hin). by apply is_unsent_true.
Qed.

End Selection.

(** ** The endpoints and the tracker *)

Lemma mark_bounty_sent_sent env id w :
  sent_bounties (snd (mark_bounty_sent env id w)) = {[id]} ∪ sent_bounties w.
Proof.
  unfold mark_bounty_sent, save_sent_bounties, bind, modify. simpl.
  destruct (writable (disk w)); [done|]. by destruct (failure (disk w)).
Qed.

(** C4. When [trigger_scrape] has chosen a bounty [r]: the id of [r] is
    in the store afterwards exactly when the delivery succeeded, and then
    it is the one id added; when the delivery failed the answer is a 500
    with status [error] that carries [r], the world is unchanged and [r]
    is chosen again; when no webhook is configured the answer has status
    [warning] and carries [r], and the world is unchanged. *)
Theorem trigger_scrape_marks_iff_delivered env w r :
  highest_unsent (sent_bounties w) (scrape_bounties env) = Some r →
  let resp := fst (trigger_scrape env w) in
  let w' := snd (trigger_scrape env w) in
  (bounty_id r ∈ sent_bounties w' ↔ delivered env r = true)
  ∧ (delivered env r = true →
       sent_bounties w' = {[bounty_id r]} ∪ sent_bounties w
       ∧ field "bounty" resp = Some (JBounty r) ∧ code resp = 200
       ∧ field "status" resp = Some (JStr "success"))
  ∧ (delivered env r = false →
       w' = w ∧ highest_unsent (sent_bounties w') (scrape_bounties env) = Some r)
  ∧ (webhook_configured env = true → delivered env r = false →
       resp = mkResponse
                [ ("status", JStr "error");
                  ("message", JStr "Failed to send Slack notification");
                  ("bounty", JBounty r) ] 500)
  ∧ (webhook_configured env = false →
       field "status" resp = Some (JStr "warning")
       ∧ field "bounty" resp = Some (JBounty r) ∧ code resp = 200 ∧ w' = w).
Proof.
  intros Hr resp w'.
  pose proof (highest_unsent_unsent _ _ _ Hr) as Hnew.
  subst resp w'. unfold delivered, webhook_configured.
  unfold trigger_scrape. unfold highest_unsent in Hr.
  destruct (scrape_bounties env) as [|b0 l0] eqn:Hs; [done|].
  unfold bind, gets.
  destruct (unsent (sent_bounties w) (b0 :: l0)) as [|b rest] eqn:Hu; [done|].
  injection Hr as Hr. rewrite Hr.
  assert (Hagain : highest_unsent (sent_bounties w) (b0 :: l0) = Some r).
  { unfold highest_unsent. by rewrite Hu, Hr. }
  destruct (getenv env "SLACK_WEBHOOK_URL") as [[|c u]|]; simpl.
  - repeat split; try done.
  - destruct (send_bounty_notification env (String c u) r) eqn:Hsend.
    + unfold mark_bounty_sent, save_sent_bounties, bind, modify. simpl.
      destruct (writable (disk w)); [|destruct (failure (disk w))];
        simpl; repeat split; try done; set_solver.
    + simpl. repeat split; try done.
  - repeat split; try done.
Qed.

(** C10. [get_bounties] leaves the world as it found it: the set of sent
    ids in memory and the storage file. *)
Theorem get_bounties_keeps_world env w :
  snd (get_bounties env w) = w
  ∧ sent_bounties (snd (get_bounties env w)) = sent_bounties w
  ∧ storage_file (disk (snd (get_bounties env w))) = storage_file (disk w).
Proof. done. Qed.

(** ** The store over a run of the process *)

Section Store.

Implicit Types (w : World) (id : string) (op : operation).

Lemma save_sent_bounties_sent env w :
  sent_bounties (snd (save_sent_bounties env w)) = sent_bounties w.
Proof.
  unfold save_sent_bounties, modify; simpl.
  destruct (writable (disk w)); [done|]. by destruct (failure (disk w)).
Qed.

(** [trigger_scrape] leaves the world alone or marks one bounty. *)
Lemma trigger_scrape_world env w :
  snd (trigger_scrape env w) = w
  ∨ ∃ id, snd (trigger_scrape env w) = snd (mark_bounty_sent env id w).
Proof.
  unfold trigger_scrape.
  destruct (scrape_bounties env) as [|b0 l0]; [by left|].
  unfold bind, gets.
  destruct (unsent (sent_bounties w) (b0 :: l0)) as [|b rest]; [by left|].
  destruct (getenv env "SLACK_WEBHOOK_URL") as [[|c u]|]; [by left| |by left].
  destruct (send_bounty_notification env (String c u) (max_from b rest));
    [|by left].
  right. exists (bounty_id (max_from b rest)).
  by destruct (mark_bounty_sent env _ w).
Qed.

(** No operation takes an id out of the set. *)
Lemma perform_grows op w : sent_bounties w ⊆ sent_bounties (perform op w).
Proof.
  destruct op as [id|env id|env|env|env]; cbn [perform]; [done| | |  |done].
  - rewrite mark_bounty_sent_sent. set_solver.
  - by rewrite save_sent_bounties_sent.
  - destruct (trigger_scrape_world env w) as [->|[id ->]]; [done|].
    rewrite mark_bounty_sent_sent. set_solver.
Qed.

Lemma perform_all_grows ops w :
  sent_bounties w ⊆ sent_bounties (perform_all ops w).
Proof.
  revert w. induction ops as [|op ops IH]; intros w; simpl; [done|].
  etrans; [apply (perform_grows op)|apply IH].
Qed.

Lemma save_persisted env id w :
  writable (disk w) = true → id ∈ sent_bounties w →
  persisted id (snd (save_sent_bounties env w)).
Proof.
  intros Hw Hid. unfold persisted, save_sent_bounties, modify; simpl.
  rewrite Hw; simpl. repeat split; [done..|].
  eexists _, _. split; [done|]. by apply elem_of_elements.
Qed.

Lemma mark_persisted env id j w :
  writable (disk w) = true → (id = j ∨ id ∈ sent_bounties w) →
  persisted id (snd (mark_bounty_sent env j w)).
Proof.
  intros Hw Hid. unfold mark_bounty_sent, bind, modify. cbv beta iota.
  apply save_persisted; simpl; [done|]. set_solver.
Qed.

Lemma perform_persisted op id w : persisted id w → persisted id (perform op w).
Proof.
  intros (Hw & Hid & Hfile).
  destruct op as [j|env j|env|env|env]; cbn [perform]; [done| | | |done].
  - apply mark_persisted; auto.
  - by apply save_persisted.
  - destruct (trigger_scrape_world env w) as [->|[j ->]]; [done|].
    apply mark_persisted; auto.
Qed.

Lemma restart_persisted id w : persisted id w → persisted id (restart w).
Proof.
  intros (Hw & _ & l & t & Hf & Hl).
  unfold persisted, restart, BountyTracker, load_sent_bounties, modify; simpl.
  rewrite Hf; simpl. repeat split; [done| |eauto]. by apply elem_of_list_to_set.
Qed.

Lemma happen_all_persisted evs id w :
  persisted id w → persisted id (happen_all evs w).
Proof.
  revert w. induction evs as [|ev evs IH]; intros w H; simpl; [done|].
  apply IH. destruct ev as [op|]; simpl.
  - by apply perform_persisted.
  - by apply restart_persisted.
Qed.

(** C3. After [mark_bounty_sent id], [is_bounty_sent id] answers true,
    at once and after any further operations; no operation removes an
    id from the set; marking an id that is marked leaves the set as it
    is; and when the storage file can be written, the answer stays true
    through any further operations and restarts of the process. *)
Theorem mark_bounty_sent_lasts env id w ops :
  let w1 := snd (mark_bounty_sent env id w) in
  let w2 := perform_all ops w1 in
  fst (is_bounty_sent id w1) = true
  ∧ fst (is_bounty_sent id w2) = true
  ∧ sent_bounties w ⊆ sent_bounties w1
  ∧ (∀ w0 ops0, sent_bounties w0 ⊆ sent_bounties (perform_all ops0 w0))
  ∧ (id ∈ sent_bounties w → sent_bounties w1 = sent_bounties w)
  ∧ (writable (disk w) = true →
       fst (is_bounty_sent id (restart w1)) = true
       ∧ ∀ evs, fst (is_bounty_sent id (happen_all evs w1)) = true).
Proof.
  intros w1 w2.
  assert (H1 : id ∈ sent_bounties w1).
  { subst w1. rewrite mark_bounty_sent_sent. set_solver. }
  assert (H2 : id ∈ sent_bounties w2).
  { subst w2. by apply (perform_all_grows ops w1). }
  unfold is_bounty_sent, gets; simpl.
  repeat split.
  - by apply bool_decide_eq_true.
  - by apply bool_decide_eq_true.
  - subst w1. rewrite mark_bounty_sent_sent. set_solver.
  - intros w0 ops0. apply perform_all_grows.
  - intros Hin. subst w1. rewrite mark_bounty_sent_sent.
    by apply subseteq_union_1_L, singleton_subseteq_l.
  - apply bool_decide_eq_true.
    apply (happen_all_persisted [Restart] id w1).
    subst w1. apply mark_persisted; auto.
  - intros evs. apply bool_decide_eq_true.
    apply (happen_all_persisted evs id w1).
    subst w1. apply mark_persisted; auto.
Qed.

End Store.

(** ** What the price patterns match *)

Section Patterns.

Implicit Types (s d g r : string) (c : ascii).

Lemma all_app p s1 s2 :
  Str.all p (s1 +:+ s2) = Str.all p s1 && Str.all p s2.
Proof.
  induction s1 as [|c s1 IH]; simpl; [done|].
  by rewrite IH, andb_assoc.
Qed.

Lemma remove_char_app x s1 s2 :
  Str.remove_char x (s1 +:+ s2) = Str.remove_char x s1 +:+ Str.remove_char x s2.
Proof.
  induction s1 as [|c s1 IH]; simpl; [done|].
  rewrite IH. by destruct (Ascii.eqb c x).
Qed.

Lemma digit_not x c :
  Str.is_digit x = false → Str.is_digit c = true → Ascii.eqb c x = false.
Proof.
  intros Hx Hc. destruct (Ascii.eqb_spec c x) as [->|]; [congruence|done].
Qed.

(** A string of digits holds no comma and no dot. *)
Lemma remove_char_digits x d :
  Str.is_digit x = false → Str.all Str.is_digit d = true →
  Str.remove_char x d = d.
Proof.
  intros Hx. induction d as [|c d IH]; simpl; [done|].
  intros [Hc Hd]%andb_true_iff.
  by rewrite (digit_not x c Hx Hc), IH.
Qed.

Lemma partition_digits x d :
  Str.is_digit x = false → Str.all Str.is_digit d = true →
  Str.partition x d = None.
Proof.
  intros Hx. induction d as [|c d IH]; simpl; [done|].
  intros [Hc Hd]%andb_true_iff.
  by rewrite (digit_not x c Hx Hc), IH.
Qed.

Lemma partition_digits_then x d s :
  Str.is_digit x = false → Str.all Str.is_digit d = true →
  Str.partition x (d +:+ String x s) = Some (d, s).
Proof.
  intros Hx. induction d as [|c d IH]; simpl.
  - by rewrite Ascii.eqb_refl.
  - intros [Hc Hd]%andb_true_iff.
    by rewrite (digit_not x c Hx Hc), IH.
Qed.

Lemma truthy_app s1 s2 : Str.truthy s1 = true → Str.truthy (s1 +:+ s2) = true.
Proof. by destruct s1. Qed.

Lemma digits_upto_digits n s d r :
  Re.digits_upto n s = (d, r) → Str.all Str.is_digit d = true.
Proof.
  revert s d r. induction n as [|n IH]; intros s d r; simpl.
  - by intros [= <- _].
  - destruct s as [|c s]; [by intros [= <- _]|].
    destruct (Str.is_digit c) eqn:Hc; [|by intros [= <- _]].
    destruct (Re.digits_upto n s) as [d' r'] eqn:Hd.
    intros [= <- _]. simpl. by rewrite Hc, (IH _ _ _ Hd).
Qed.

Lemma digits_star_digits s d r :
  Re.digits_star s = (d, r) → Str.all Str.is_digit d = true.
Proof.
  revert d r. induction s as [|c s IH]; intros d r; simpl.
  - by intros [= <- _].
  - destruct (Str.is_digit c) eqn:Hc; [|by intros [= <- _]].
    destruct (Re.digits_star s) as [d' r'] eqn:Hd.
    intros [= <- _]. simpl. by rewrite Hc, (IH _ _ eq_refl).
Qed.

(** Without their commas, the groups of three are digits. *)
Lemma comma_groups_digits s g r :
  Re.comma_groups s = (g, r) →
  Str.all Str.is_digit (Str.remove_char "," g) = true.
Proof.
  remember (String.length s) as n eqn:Hn.
  assert (Hle : (String.length s <= n)%nat) by lia. clear Hn.
  revert s g r Hle. induction n as [|n IH]; intros s g r Hle.
  - destruct s; [by intros [= <- _] | simpl in Hle; lia].
  - destruct s as [|x [|a [|b [|c s]]]]; try by intros [= <- _].
    simpl.
    destruct (Ascii.eqb x "," && Str.is_digit a && Str.is_digit b && Str.is_digit c)
      eqn:Hg; [|by intros [= <- _]].
    destruct (Re.comma_groups s) as [g' r'] eqn:Hs.
    intros [= <- _].
    apply andb_true_iff in Hg as [[[Hx Ha]%andb_true_iff Hb]%andb_true_iff Hc].
    apply Ascii.eqb_eq in Hx as ->. simpl.
    rewrite (digit_not "," a), (digit_not "," b), (digit_not "," c) by done.
    simpl. rewrite Ha, Hb, Hc. simpl.
    apply (IH s g' r'); [simpl in Hle; lia | done].
Qed.

(** The text of an integer with commas reads as a float. *)
Lemma integer_float s g r :
  Re.integer s = Some (g, r) → ∃ v, float_nocomma g = Some v.
Proof.
  unfold Re.integer.
  destruct (Re.digits_star s) as [d r1] eqn:Hd.
  destruct (Str.truthy d) eqn:Ht; [|done].
  destruct (Re.comma_groups r1) as [cg r2] eqn:Hc.
  intros [= <- _]. unfold float_nocomma, Num.float.
  pose proof (digits_star_digits _ _ _ Hd) as Hdd.
  pose proof (comma_groups_digits _ _ _ Hc) as Hcd.
  rewrite remove_char_app, (remove_char_digits "," d) by done.
  rewrite partition_digits by (by rewrite ?all_app, ?Hdd, ?Hcd).
  rewrite truthy_app by done. rewrite all_app, Hdd, Hcd. simpl. eauto.
Qed.

Lemma fraction_cases s f r :
  Re.fraction s = (f, r) →
  f = EmptyString
  ∨ ∃ a b, f = String "." (String a (String b EmptyString))
      ∧ Str.is_digit a = true ∧ Str.is_digit b = true.
Proof.
  unfold Re.fraction.
  destruct s as [|x [|a [|b s]]]; try (intros [= <- _]; by left).
  destruct (Ascii.eqb x "." && Str.is_digit a && Str.is_digit b) eqn:Hf;
    [|intros [= <- _]; by left].
  apply andb_true_iff in Hf as [[Hx Ha]%andb_true_iff Hb].
  apply Ascii.eqb_eq in Hx as ->.
  intros [= <- _]. right. eauto.
Qed.

Lemma append_cons c s1 s2 : String c s1 +:+ s2 = String c (s1 +:+ s2).
Proof. reflexivity. Qed.

Lemma append_assoc s1 s2 s3 : (s1 +:+ s2) +:+ s3 = s1 +:+ s2 +:+ s3.
Proof.
  induction s1 as [|c s1 IH]; [done|]. by rewrite !append_cons, IH.
Qed.

Lemma append_empty s : s +:+ EmptyString = s.
Proof. induction s as [|c s IH]; [done|]. by rewrite append_cons, IH. Qed.

(** The text of an amount reads as a float. *)
Lemma amount_float s g r :
  Re.amount s = Some (g, r) → ∃ v, float_nocomma g = Some v.
Proof.
  unfold Re.amount.
  destruct (Re.digits_upto 3 s) as [d r1] eqn:Hd.
  destruct (Str.truthy d) eqn:Ht; [|done].
  destruct (Re.comma_groups r1) as [cg r2] eqn:Hc.
  destruct (Re.fraction r2) as [f r3] eqn:Hf.
  intros [= <- _]. unfold float_nocomma, Num.float.
  pose proof (digits_upto_digits _ _ _ _ Hd) as Hdd.
  pose proof (comma_groups_digits _ _ _ Hc) as Hcd.
  rewrite !remove_char_app, (remove_char_digits "," d) by done.
  assert (Hall : Str.all Str.is_digit (d +:+ Str.remove_char "," cg) = true)
    by (by rewrite all_app, Hdd, Hcd).
  assert (Htr : Str.truthy (d +:+ Str.remove_char "," cg) = true)
    by (by apply truthy_app).
  destruct (fraction_cases _ _ _ Hf) as [->|(a & b & -> & Ha & Hb)].
  - simpl. rewrite append_empty, partition_digits by done.
    rewrite Htr, Hall. simpl. eauto.
  - cbn [Str.remove_char]. rewrite (digit_not "," a), (digit_not "," b) by done.
    change (Ascii.eqb "." ",") with false. cbv iota.
    rewrite <- append_assoc.
    rewrite partition_digits_then by done.
    rewrite Htr, Hall. simpl. rewrite Ha, Hb. simpl. eauto.
Qed.

(** An item of the scan is a match of the pattern somewhere. *)
Lemma scan_match (m : Re.matcher) s k x rest :
  Re.scan m k s = x :: rest → ∃ s' r', m s' = Some (x, r').
Proof.
  revert k. induction s as [|c s IH]; intros k; simpl; [done|].
  destruct k as [|k]; [|apply IH].
  destruct (m (String c s)) as [[y r']|] eqn:Hm; [|apply IH].
  intros [= <- _]. eauto.
Qed.

Lemma range_of_match number s x r :
  Re.range_of number s = Some (x, r) →
  ∃ g1 r1 g2 s2, x = MTuple g1 g2
    ∧ number s = Some (g1, r1) ∧ number s2 = Some (g2, r).
Proof.
  unfold Re.range_of.
  destruct (number s) as [[g1 r1]|] eqn:H1; [|done].
  destruct (Re.spaces r1) as [|c r2]; [done|].
  destruct (Ascii.eqb c "-"); [|done].
  destruct (number (Re.spaces r2)) as [[g2 r3]|] eqn:H2; [|done].
  intros [= <- <-]. eauto 10.
Qed.

End Patterns.

(** ** Prices and identifiers of extracted bounties *)

Section Extraction.

Implicit Types (env : Env) (e : element) (r : Bounty) (text url : string).

Lemma extract_bounty_data_fields env e url r :
  _extract_bounty_data env e url = Some r →
  title r = title_of title_selectors e
  ∧ price r = price_of price_patterns (get_text (self e))
  ∧ link_of e url = Some (link r)
  ∧ bounty_id r = Md5.hexdigest (title r +:+ Num.str (price r) +:+ link r).
Proof.
  unfold _extract_bounty_data.
  destruct (link_of e url) as [l|]; [|done]. by intros [= <-].
Qed.

Lemma in_extract_from_text env html url r :
  In r (_extract_from_text env html url) →
  ∃ v, 0 < v ∧ r = text_bounty env url v.
Proof.
  unfold _extract_from_text. rewrite in_flat_map.
  intros (pattern & _ & Hr). apply in_flat_map in Hr as (m & _ & Hr).
  destruct (price_of_text_match m) as [v|]; [|done].
  destruct (Z.ltb_spec 0 v); [|done].
  destruct Hr as [<-|[]]. eauto.
Qed.


(** The price when the first pattern to match is the range pattern. *)
Lemma price_of_range text a b rest :
  Re.findall Re.dollar_amount text = [] →
  Re.findall Re.cycles_amount text = [] →
  Re.findall Re.integer_range text = MTuple a b :: rest →
  ∃ va vb, float_nocomma a = Some va ∧ float_nocomma b = Some vb
    ∧ price_of price_patterns text = PyFloat (Z.max va vb).
Proof.
  intros H1 H2 H3. unfold price_patterns. cbn [price_of].
  rewrite H1, H2, H3.
  destruct (scan_match _ _ _ _ _ H3) as (s' & r' & Hm).
  destruct (range_of_match _ _ _ _ Hm)
    as (g1 & r1 & g2 & s2 & [= -> ->] & Ha & Hb).
  destruct (integer_float _ _ _ Ha) as [va Hva].
  destruct (integer_float _ _ _ Hb) as [vb Hvb].
  exists va, vb. unfold price_of_first. cbn [len item nth_error].
  by rewrite Hva, Hvb.
Qed.

(** C6. When the text of an element has no match of the dollar pattern
    and none of the cycles pattern, and the first match of the range
    pattern has the ends [a] and [b], the price of the bounty is the
    greater of the values of [a] and [b]. *)
Theorem range_price_is_maximum env e url r a b rest :
  Re.findall Re.dollar_amount (get_text (self e)) = [] →
  Re.findall Re.cycles_amount (get_text (self e)) = [] →
  Re.findall Re.integer_range (get_text (self e)) = MTuple a b :: rest →
  _extract_bounty_data env e url = Some r →
  ∃ va vb, float_nocomma a = Some va ∧ float_nocomma b = Some vb
    ∧ price r = PyFloat (Z.max va vb).
Proof.
  intros H1 H2 H3 (_ & -> & _)%extract_bounty_data_fields.
  by apply (price_of_range _ a b rest).
Qed.

(** The price when the dollar pattern matches and its first match is
    not two characters long: the value of that match. *)
Lemma price_of_dollar text g rest :
  Re.findall Re.dollar_amount text = MStr g :: rest →
  String.length g ≠ 2%nat →
  ∃ v, float_nocomma g = Some v ∧ price_of price_patterns text = PyFloat v.
Proof.
  intros H1 Hlen. unfold price_patterns. cbn [price_of]. rewrite H1.
  destruct (scan_match _ _ _ _ _ H1) as (s' & r' & Hm).
  unfold Re.dollar_amount in Hm.
  destruct s' as [|c s']; [done|]. destruct (Ascii.eqb c "$"); [|done].
  destruct (Re.amount s') as [[g' r'']|] eqn:Ha; [|done].
  injection Hm as -> _.
  destruct (amount_float _ _ _ Ha) as [v Hv].
  exists v. split; [done|]. unfold price_of_first. cbn [len].
  destruct (Nat.eqb_spec (String.length g) 2) as [|_]; [done|].
  by rewrite Hv.
Qed.

End Extraction.

(** ** The tiers of the extraction *)

Section Tiers.

Implicit Types (env : Env) (e : element) (r : Bounty) (html url : string).

Lemma filter_recent_all (l : list Bounty) : _filter_recent_bounties l = l.
Proof.
  unfold _filter_recent_bounties.
  assert (H : ∀ acc, fold_left (fun a b => (a ++ [b])%list) l acc = (acc ++ l)%list).
  { induction l as [|b l IH]; intros acc; simpl; [by rewrite app_nil_r|].
    by rewrite IH, <- app_assoc. }
  apply H.
Qed.

Lemma parse_bounties_tiers env html url soup :
  BeautifulSoup env html = Some soup →
  _parse_bounties env html url
  = match structured env bounty_selectors soup url with
    | [] => _extract_from_text env html url
    | b :: l => b :: l
    end.
Proof.
  intros Hsoup. unfold _parse_bounties. rewrite Hsoup, filter_recent_all.
  by destruct (structured env bounty_selectors soup url).
Qed.

Lemma parse_bounties_rejected env html url :
  BeautifulSoup env html = None → _parse_bounties env html url = [].
Proof. intros Hsoup. unfold _parse_bounties. by rewrite Hsoup. Qed.

(** The loop over the selectors stops at the first one that selects an
    element. *)
Lemma structured_first env soup url pre sel post :
  (∀ s, In s pre → select s soup = []) → select sel soup ≠ [] →
  structured env (pre ++ sel :: post) soup url
  = bounties_of env url (select sel soup).
Proof.
  intros Hpre Hsel. induction pre as [|s pre IH]; simpl.
  - by destruct (select sel soup).
  - rewrite (Hpre s) by (by left). apply IH. intros s' Hs'. apply Hpre. by right.
Qed.

Lemma structured_none env soup url sels :
  (∀ s, In s sels → select s soup = []) → structured env sels soup url = [].
Proof.
  induction sels as [|s sels IH]; intros H; simpl; [done|].
  rewrite (H s) by (by left). apply IH. intros s' Hs'. apply H. by right.
Qed.

Lemma in_bounties_of env url (els : list element) r :
  In r (bounties_of env url els)
  ↔ ∃ e, In e els ∧ _extract_bounty_data env e url = Some r.
Proof.
  unfold bounties_of. rewrite <- list_elem_of_In, list_elem_of_omap.
  by setoid_rewrite list_elem_of_In.
Qed.

(** C7, as amended.  On a page that parses into the document [soup]:
    when [sel] is the first selector that selects an element and one of
    its elements gives a bounty, the result is the bounties of the
    elements of [sel], each extracted from one of them, and nothing else.
    When no element of [sel] gives a bounty, the result is the one of the
    free-text tier. *)
Theorem first_selector_bounties_only env html url soup pre sel post :
  BeautifulSoup env html = Some soup →
  bounty_selectors = (pre ++ sel :: post)%list →
  (∀ s, In s pre → select s soup = []) →
  select sel soup ≠ [] →
  let mine := bounties_of env url (select sel soup) in
  (mine ≠ [] → _parse_bounties env html url = mine)
  ∧ (mine = [] →
       _parse_bounties env html url = _extract_from_text env html url)
  ∧ (∀ r, In r mine ↔
       ∃ e, In e (select sel soup)
            ∧ _extract_bounty_data env e url = Some r).
Proof.
  intros Hsoup Hsels Hpre Hsel mine.
  rewrite (parse_bounties_tiers _ _ _ _ Hsoup), Hsels,
    (structured_first _ _ _ _ _ _ Hpre Hsel).
  fold mine. split; [|split].
  - by destruct mine.
  - by intros ->.
  - intros r. apply in_bounties_of.
Qed.

Lemma first_page_none env urls :
  (∀ u, In u urls → page_text env u = None) → first_page env urls = None.
Proof.
  induction urls as [|u urls IH]; intros H; simpl; [done|].
  pose proof (H u (or_introl eq_refl)) as Hu. unfold page_text in Hu.
  destruct (requests_get env u) as [|status text].
  - apply IH. intros v Hv. apply H. by right.
  - destruct (status =? 200); [done|]. apply IH. intros v Hv. apply H. by right.
Qed.

Lemma first_page_some env pre u post text :
  (∀ v, In v pre → page_text env v = None) → page_text env u = Some text →
  first_page env (pre ++ u :: post) = Some (_parse_bounties env text u).
Proof.
  intros Hpre Hu. induction pre as [|v pre IH]; simpl.
  - unfold page_text in Hu. destruct (requests_get env u) as [|status t]; [done|].
    destruct (status =? 200); [|done]. by injection Hu as ->.
  - pose proof (Hpre v (or_introl eq_refl)) as Hv. unfold page_text in Hv.
    assert (Hrest : ∀ v', In v' pre → page_text env v' = None)
      by (intros v' Hv'; apply Hpre; by right).
    destruct (requests_get env v) as [|status t]; [by apply IH|].
    destruct (status =? 200); [done|]. by apply IH.
Qed.

(** C1, as amended.  [scrape_bounties] returns the three sample
    bounties when none of the addresses answers with status 200.  When
    one does, it returns the result of [_parse_bounties] on the first
    such page.  That result is empty when the parser rejects the page.
    On a page that parses, it is the bounties of the structured tier if
    there are any, else those of the free-text tier; when no selector
    selects an element and the free-text tier finds nothing, it is
    empty. *)
Theorem scrape_bounties_sample_when_no_page env :
  ((∀ u, In u urls_to_try → page_text env u = None) →
     scrape_bounties env = _get_sample_bounties env
     ∧ length (scrape_bounties env) = 3%nat)
  ∧ (∀ pre u post text,
       urls_to_try = (pre ++ u :: post)%list →
       (∀ v, In v pre → page_text env v = None) →
       page_text env u = Some text →
       scrape_bounties env = _parse_bounties env text u)
  ∧ (∀ html url,
       BeautifulSoup env html = None → _parse_bounties env html url = [])
  ∧ (∀ html url soup,
       BeautifulSoup env html = Some soup →
       _parse_bounties env html url
       = match structured env bounty_selectors soup url with
         | [] => _extract_from_text env html url
         | b :: l => b :: l
         end)
  ∧ (∀ html url soup,
       BeautifulSoup env html = Some soup →
       (∀ s, In s bounty_selectors → select s soup = []) →
       _extract_from_text env html url = [] →
       _parse_bounties env html url = []).
Proof.
  split; [|split; [|split; [|split]]].
  - intros H. unfold scrape_bounties. by rewrite first_page_none.
  - intros pre u post text Hurls Hpre Hu. unfold scrape_bounties.
    by rewrite Hurls, (first_page_some _ _ _ _ _ Hpre Hu).
  - apply parse_bounties_rejected.
  - apply parse_bounties_tiers.
  - intros html url soup Hsoup Hsel Htext.
    by rewrite (parse_bounties_tiers _ _ _ _ Hsoup), structured_none.
Qed.

(** C9. A bounty of the free-text tier has the id that its price and
    the address of the page give; two of them on one page with the same
    price have the same id; and a page can give two bounties with one
    id. *)
Theorem free_text_id_from_price_and_url env html url r1 r2 :
  In r1 (_extract_from_text env html url) →
  In r2 (_extract_from_text env html url) →
  bounty_id r1
  = Md5.hexdigest ("extracted_" +:+ Num.str (price r1) +:+ "_" +:+ url)
  ∧ (price r1 = price r2 → bounty_id r1 = bounty_id r2)
  ∧ ∃ env' html' url' b1 b2 rest,
      _parse_bounties env' html' url' = b1 :: b2 :: rest
      ∧ bounty_id b1 = bounty_id b2.
Proof.
  intros (v1 & _ & ->)%in_extract_from_text (v2 & _ & ->)%in_extract_from_text.
  split; [done|]. split.
  - simpl. by intros [= ->].
  - exists (example_env no_page []), "<p>$500 or $500</p>",
      "https://replit.com/bounties".
    eexists _, _, _. split; [by vm_compute | done].
Qed.

End Tiers.

(** ** The scenarios of the specification and other examples *)

(** The first scenario of the specification: the price and the link of
    the dashboard card on [https://example.test]. *)
Example dashboard_scenario :
  _extract_bounty_data dashboard_env (Element [] dashboard_card) "https://example.test"
  = Some (mkBounty "6471a122464fc0fa69be7515732e9c9c" "Build a Dashboard"
            (PyFloat 250000) "https://example.test/bounties/42"
            "2026-01-05T09:00:00" "Build a Dashboard $2,500.00 View").
Proof. by vm_compute. Qed.

(** The scenarios of the selector: from 1000 and 2500 the choice is
    2500, and 1000 once 2500 is sent. *)
Example select_scenarios :
  highest_unsent ∅ [priced "id-1000" 100000; priced "id-2500" 250000]
  = Some (priced "id-2500" 250000)
  ∧ highest_unsent {["id-2500"]} [priced "id-1000" 100000; priced "id-2500" 250000]
    = Some (priced "id-1000" 100000)
  ∧ highest_unsent {["id-2500"; "id-1000"]}
      [priced "id-1000" 100000; priced "id-2500" 250000]
    = None.
Proof. by vm_compute. Qed.

(** The default price prints as [0], a price read as zero as [0.0]. *)
Example zero_prices_print_apart :
  Num.str (PyInt 0) = "0" ∧ Num.str (PyFloat 0) = "0.0"
  ∧ Num.value (PyInt 0) = Num.value (PyFloat 0).
Proof. by vm_compute. Qed.

(** C5, where the code departs from it.  The text of [cheap_card] has one
    match of the dollar pattern, [25], of value 25.00; the test
    [len(matches[0]) == 2] takes this string of two characters for the
    pair of a range, and the price is the greater of its digits, 5.00. *)
Theorem two_digit_dollar_amount_read_as_range env url :
  Re.findall Re.dollar_amount (get_text cheap_card) = [MStr "25"]
  ∧ float_nocomma "25" = Some 2500
  ∧ price <$> _extract_bounty_data env (Element [] cheap_card) url
    = Some (PyFloat 500).
Proof. by vm_compute. Qed.

(** C1, where the claim fails: a page fetched with status 200 in which
    neither tier finds a bounty gives no bounty, not the sample set. *)
Lemma empty_page_gives_no_bounty :
  page_text empty_env first_url = Some ""
  ∧ BeautifulSoup empty_env "" = Some []
  ∧ structured empty_env bounty_selectors [] first_url = []
  ∧ _extract_from_text empty_env "" first_url = []
  ∧ _parse_bounties empty_env "" first_url = []
  ∧ scrape_bounties empty_env = [].
Proof. by vm_compute. Qed.

(** C7, where the claim fails: the selector [.bounty-card] selects the
    card, its extraction raises in [urljoin], and the one bounty of the
    result is the one of the free-text tier. *)
Lemma free_text_despite_selected_card :
  BeautifulSoup broken_link_env broken_link_html = Some [broken_link_card]
  ∧ select (ByClass "bounty-card") [broken_link_card]
    = [Element [] broken_link_card]
  ∧ _extract_bounty_data broken_link_env (Element [] broken_link_card) first_url = None
  ∧ _parse_bounties broken_link_env broken_link_html first_url
    = [text_bounty broken_link_env first_url 50000]
  ∧ _parse_bounties broken_link_env broken_link_html first_url
    = _extract_from_text broken_link_env broken_link_html first_url.
Proof. by vm_compute. Qed.

Lemma highest_unsent_is_first_maximum_witness :
  highest_unsent {["id-2500"]} three_bounties = Some (priced "id-1000" 100000)
  ∧ ∃ k1 k2,
      three_bounties = (k1 ++ priced "id-1000" 100000 :: k2)%list
      ∧ ∀ x, In x k2 → bounty_id x ∉ ({["id-2500"]} : gset string) →
             value_of x <= 100000.
Proof.
  assert (E : highest_unsent {["id-2500"]} three_bounties
              = Some (priced "id-1000" 100000))
    by (by vm_compute).
  split; [exact E|].
  pose proof (proj2 (highest_unsent_is_first_maximum {["id-2500"]} three_bounties))
    as H.
  rewrite E in H. destruct H as (k1 & k2 & Hl & _ & _ & H2). eauto.
Defined.

Lemma trigger_scrape_marks_iff_delivered_witness :
  highest_unsent (sent_bounties fresh_world) (scrape_bounties dashboard_env_later)
  = Some (dashboard_bounty dashboard_env_later)
  ∧ delivered dashboard_env_later (dashboard_bounty dashboard_env_later) = true
  ∧ bounty_id (dashboard_bounty dashboard_env_later)
    ∈ sent_bounties (snd (trigger_scrape dashboard_env_later fresh_world)).
Proof.
  assert (H : highest_unsent (sent_bounties fresh_world)
                (scrape_bounties dashboard_env_later)
              = Some (dashboard_bounty dashboard_env_later)) by (by vm_compute).
  assert (Hd : delivered dashboard_env_later (dashboard_bounty dashboard_env_later)
               = true) by (by vm_compute).
  split; [exact H|]. split; [exact Hd|].
  by apply (trigger_scrape_marks_iff_delivered dashboard_env_later fresh_world _ H).
Defined.

Lemma range_price_is_maximum_witness :
  Re.findall Re.dollar_amount (get_text budget_card) = []
  ∧ Re.findall Re.cycles_amount (get_text budget_card) = []
  ∧ Re.findall Re.integer_range (get_text budget_card) = [MTuple "100" "500"]
  ∧ ∃ r, _extract_bounty_data dashboard_env (Element [] budget_card) first_url = Some r
      ∧ ∃ va vb, float_nocomma "100" = Some va ∧ float_nocomma "500" = Some vb
          ∧ price r = PyFloat (Z.max va vb).
Proof.
  assert (H1 : Re.findall Re.dollar_amount (get_text budget_card) = [])
    by (by vm_compute).
  assert (H2 : Re.findall Re.cycles_amount (get_text budget_card) = [])
    by (by vm_compute).
  assert (H3 : Re.findall Re.integer_range (get_text budget_card)
               = [MTuple "100" "500"]) by (by vm_compute).
  assert (H4 : _extract_bounty_data dashboard_env (Element [] budget_card) first_url
               = Some (mkBounty "5ac713dcf11101e1fc4023bc3e5ecba2" "Unknown Title"
                         (PyFloat 50000) "" "2026-01-05T09:00:00"
                         "Budget 100-500 USD")) by (by vm_compute).
  repeat (split; [done|]). eexists. split; [exact H4|].
  exact (range_price_is_maximum _ (Element [] budget_card) _ _ _ _ _ H1 H2 H3 H4).
Defined.

Lemma first_selector_bounties_only_witness :
  BeautifulSoup dashboard_env dashboard_html = Some [dashboard_card]
  ∧ bounty_selectors
    = ([AttrContains (Some "div") "data-testid" "bounty"] ++ ByClass "bounty-card"
         :: [ ByClass "service-card"; AttrContains None "class" "bounty";
              AttrContains None "class" "service" ])%list
  ∧ (∀ s, In s [AttrContains (Some "div") "data-testid" "bounty"] →
       select s [dashboard_card] = [])
  ∧ select (ByClass "bounty-card") [dashboard_card] ≠ []
  ∧ _parse_bounties dashboard_env dashboard_html first_url
    = [dashboard_bounty dashboard_env].
Proof.
  assert (H0 : BeautifulSoup dashboard_env dashboard_html = Some [dashboard_card])
    by done.
  assert (H1 : bounty_selectors
    = ([AttrContains (Some "div") "data-testid" "bounty"] ++ ByClass "bounty-card"
         :: [ ByClass "service-card"; AttrContains None "class" "bounty";
              AttrContains None "class" "service" ])%list) by done.
  assert (H2 : ∀ s, In s [AttrContains (Some "div") "data-testid" "bounty"] →
                 select s [dashboard_card] = []).
  { intros s [<-|[]]. by vm_compute. }
  assert (H3 : select (ByClass "bounty-card") [dashboard_card] ≠ [])
    by (by vm_compute).
  repeat (split; [done|]).
  destruct (first_selector_bounties_only dashboard_env dashboard_html first_url
              _ _ _ _ H0 H1 H2 H3) as [H _].
  rewrite H; [by vm_compute | by vm_compute].
Defined.


Lemma free_text_id_from_price_and_url_witness :
  In (text_bounty empty_env first_url 50000)
    (_extract_from_text empty_env "<p>$500 or 400-500</p>" first_url)
  ∧ length (_extract_from_text empty_env "<p>$500 or 400-500</p>" first_url) = 2%nat
  ∧ bounty_id (text_bounty empty_env first_url 50000)
    = Md5.hexdigest ("extracted_500.0_" +:+ first_url).
Proof.
  assert (H : In (text_bounty empty_env first_url 50000)
                (_extract_from_text empty_env "<p>$500 or 400-500</p>" first_url))
    by (left; by vm_compute).
  split; [exact H|]. split; [by vm_compute|].
  by destruct (free_text_id_from_price_and_url _ _ _ _ _ H H) as [-> _].
Defined.

Lemma scrape_bounties_sample_when_no_page_witness :
  (∀ u, In u urls_to_try → page_text (example_env no_page []) u = None)
  ∧ length (scrape_bounties (example_env no_page [])) = 3%nat
  ∧ page_text dashboard_env first_url = Some dashboard_html
  ∧ scrape_bounties dashboard_env = [dashboard_bounty dashboard_env]
  ∧ BeautifulSoup rejected_env rejected_html = None
  ∧ _parse_bounties rejected_env rejected_html first_url = [].
Proof.
  assert (H1 : ∀ u, In u urls_to_try → page_text (example_env no_page []) u = None)
    by done.
  assert (H2 : page_text dashboard_env first_url = Some dashboard_html) by done.
  assert (H3 : BeautifulSoup rejected_env rejected_html = None) by done.
  destruct (scrape_bounties_sample_when_no_page (example_env no_page []))
    as [Hsample _].
  destruct (scrape_bounties_sample_when_no_page dashboard_env) as (_ & Hpage & _).
  destruct (scrape_bounties_sample_when_no_page rejected_env)
    as (_ & _ & Hrejected & _).
  split; [exact H1|]. split; [exact (proj2 (Hsample H1))|]. split; [exact H2|].
  split;
    [|split; [exact H3 | exact (Hrejected rejected_html first_url H3)]].
  rewrite (Hpage [] first_url _ dashboard_html eq_refl
             (fun v (F : In v []) => match F with end) H2).
  by vm_compute.
Defined.

Lemma mark_bounty_sent_lasts_witness :
  writable (disk fresh_world) = true
  ∧ fst (is_bounty_sent "6471a122464fc0fa69be7515732e9c9c"
           (happen_all
              [Restart; Operation (Post_scrape dashboard_env_later); Restart]
              (snd (mark_bounty_sent dashboard_env
                      "6471a122464fc0fa69be7515732e9c9c" fresh_world))))
    = true.
Proof.
  assert (H : writable (disk fresh_world) = true) by done.
  split; [exact H|].
  destruct (mark_bounty_sent_lasts dashboard_env
              "6471a122464fc0fa69be7515732e9c9c" fresh_world [])
    as (_ & _ & _ & _ & _ & Hdurable).
  exact (proj2 (Hdurable H) _).
Defined.

(** When the storage file cannot be written, the failed write is only
    logged: the id is in memory, and gone after a restart. *)
Example unwritable_disk_forgets :
  fst (is_bounty_sent "6471a122464fc0fa69be7515732e9c9c"
         (snd (mark_bounty_sent dashboard_env "6471a122464fc0fa69be7515732e9c9c"
                 (mkWorld ∅ (mkDisk None false Open_fails)))))
  = true
  ∧ fst (is_bounty_sent "6471a122464fc0fa69be7515732e9c9c"
           (restart
              (snd (mark_bounty_sent dashboard_env
                      "6471a122464fc0fa69be7515732e9c9c"
                      (mkWorld ∅ (mkDisk None false Open_fails))))))
    = false.
Proof. by vm_compute. Qed.

(** * Further properties of the pipeline *)

(** ** The records of the extraction *)

(** X1. The filter of recent bounties drops nothing and keeps the order:
    its result is its argument. *)
Theorem filter_recent_bounties_keeps_every_bounty (bounties : list Bounty) :
  _filter_recent_bounties bounties = bounties
  ∧ length (_filter_recent_bounties bounties) = length bounties.
Proof. by rewrite filter_recent_all. Qed.

(** X2. A bounty of the free-text tier has a price above zero, the
    address of the page as its link, the time of the request, the fixed
    excerpt, and a title made of the fixed words and the price with two
    decimals. *)
Theorem free_text_bounty_is_positive_and_links_to_page env html url r :
  In r (_extract_from_text env html url) →
  0 < Num.value (price r)
  ∧ link r = url
  ∧ posted_time r = now_isoformat env
  ∧ raw_text r = "Extracted from page content"
  ∧ title r = "Replit Service/Bounty - $" +:+ Num.format_comma_2f (price r).
Proof. by intros (v & Hv & ->)%in_extract_from_text. Qed.

Lemma take_length n s : (String.length (Str.take n s) <= n)%nat.
Proof.
  revert s. induction n as [|n IH]; intros [|c s]; simpl; try lia.
  specialize (IH s). lia.
Qed.

Lemma take_prefix n s : ∃ rest, s = Str.take n s +:+ rest.
Proof.
  revert s. induction n as [|n IH]; intros s.
  - exists s. by destruct s.
  - destruct s as [|c s]; [by exists EmptyString|].
    destruct (IH s) as [rest Hrest]. exists rest. simpl.
    by rewrite append_cons, <- Hrest.
Qed.

Lemma take_all n s : (String.length s <= n)%nat → Str.take n s = s.
Proof.
  revert s. induction n as [|n IH]; intros [|c s]; simpl; try done; try lia.
  intros H. rewrite IH; [done | lia].
Qed.

Lemma extract_bounty_data_raw_text env e url r :
  _extract_bounty_data env e url = Some r →
  raw_text r = Str.take 200 (get_text (self e)).
Proof.
  unfold _extract_bounty_data.
  destruct (link_of e url) as [l|]; [|done]. intros H.
  apply (f_equal (fun o => match o with
                           | Some b => raw_text b
                           | None => EmptyString
                           end)) in H.
  symmetry. exact H.
Qed.

(** X3. The excerpt of an extracted bounty is the start of the text of
    its element, of at most 200 characters, and the whole text when that
    has no more. *)
Theorem raw_text_is_bounded_start_of_text env e url r :
  _extract_bounty_data env e url = Some r →
  (String.length (raw_text r) <= 200)%nat
  ∧ (∃ rest, get_text (self e) = raw_text r +:+ rest)
  ∧ ((String.length (get_text (self e)) <= 200)%nat →
       raw_text r = get_text (self e)).
Proof.
  intros ->%extract_bounty_data_raw_text.
  split; [apply take_length|]. split; [apply take_prefix | apply take_all].
Qed.



(** ** The price of an element *)

Lemma digit_val_nonneg c : Str.is_digit c = true → 0 <= Num.digit_val c.
Proof.
  unfold Str.is_digit, Str.between, Num.digit_val.
  intros [H1 _]%andb_true_iff. apply Nat.leb_le in H1. lia.
Qed.

Lemma digits_val_nonneg s acc :
  Str.all Str.is_digit s = true → 0 <= acc → 0 <= Num.digits_val acc s.
Proof.
  revert acc. induction s as [|c s IH]; intros acc; simpl; [done|].
  intros [Hc Hs]%andb_true_iff Hacc. apply IH; [done|].
  pose proof (digit_val_nonneg c Hc). lia.
Qed.

(** A text that reads as a float reads as one that is not negative. *)
Lemma float_nonneg s v : Num.float s = Some v → 0 <= v.
Proof.
  unfold Num.float.
  destruct (Str.partition "." s) as [[i f]|].
  - destruct (Str.truthy i && Str.all Str.is_digit i && Str.all Str.is_digit f
              && (String.length f =? 2)%nat) eqn:H; [|done].
    apply andb_true_iff in H as [[[_ Hi]%andb_true_iff Hf]%andb_true_iff _].
    intros [= <-].
    pose proof (digits_val_nonneg i 0 Hi). pose proof (digits_val_nonneg f 0 Hf).
    lia.
  - destruct (Str.truthy s && Str.all Str.is_digit s) eqn:H; [|done].
    apply andb_true_iff in H as [_ Hs]. intros [= <-].
    pose proof (digits_val_nonneg s 0 Hs). lia.
Qed.

Lemma float_nocomma_digits d :
  Str.truthy d = true → Str.all Str.is_digit d = true →
  float_nocomma d = Some (100 * Num.digits_val 0 d).
Proof.
  intros Ht Hd. unfold float_nocomma, Num.float.
  rewrite (remove_char_digits "," d) by done.
  rewrite partition_digits by done. by rewrite Ht, Hd.
Qed.

Lemma length_append s1 s2 :
  String.length (s1 +:+ s2) = (String.length s1 + String.length s2)%nat.
Proof.
  induction s1 as [|c s1 IH]; [done|]. rewrite append_cons. simpl. by rewrite IH.
Qed.

Lemma comma_groups_length s g r :
  Re.comma_groups s = (g, r) → g = EmptyString ∨ (4 <= String.length g)%nat.
Proof.
  destruct s as [|x [|a [|b [|c s]]]]; try (intros [= <- _]; by left).
  simpl.
  destruct (Ascii.eqb x "," && Str.is_digit a && Str.is_digit b && Str.is_digit c);
    [|intros [= <- _]; by left].
  destruct (Re.comma_groups s) as [g' r']. intros [= <- _]. right. simpl. lia.
Qed.

(** An amount of two characters is two digits. *)
Lemma amount_two s g r :
  Re.amount s = Some (g, r) → String.length g = 2%nat →
  ∃ a b, g = String a (String b EmptyString)
    ∧ Str.is_digit a = true ∧ Str.is_digit b = true.
Proof.
  unfold Re.amount.
  destruct (Re.digits_upto 3 s) as [d r1] eqn:Hd.
  destruct (Str.truthy d) eqn:Ht; [|done].
  destruct (Re.comma_groups r1) as [cg r2] eqn:Hc.
  destruct (Re.fraction r2) as [f r3] eqn:Hf.
  intros [= <- _]. rewrite !length_append. intros Hlen.
  pose proof (digits_upto_digits _ _ _ _ Hd) as Hdd.
  destruct (comma_groups_length _ _ _ Hc) as [->|Hcg]; [|lia].
  destruct (fraction_cases _ _ _ Hf) as [->|(a & b & -> & _)];
    [|simpl in Hlen; destruct d; [done | simpl in Hlen; lia]].
  simpl in Hlen. destruct d as [|a [|b [|c d]]]; simpl in Hlen; try lia.
  simpl in Hdd. apply andb_true_iff in Hdd as [Ha [Hb _]%andb_true_iff].
  exists a, b. by rewrite !append_empty.
Qed.

(** On the text of an amount the body of the [try] never raises. *)
Lemma amount_price s g r :
  Re.amount s = Some (g, r) → ∃ v, price_of_first (MStr g) = Some v ∧ 0 <= v.
Proof.
  intros Ha. unfold price_of_first. cbn [len].
  destruct (Nat.eqb_spec (String.length g) 2) as [Hlen|_].
  - destruct (amount_two _ _ _ Ha Hlen) as (a & b & -> & Hda & Hdb).
    cbn [item String.get fmap option_fmap option_map].
    assert (Hfa : float_nocomma (Str.ch a) = Some (100 * Num.digits_val 0 (Str.ch a))).
    { apply float_nocomma_digits; [done|]. simpl. by rewrite Hda. }
    assert (Hfb : float_nocomma (Str.ch b) = Some (100 * Num.digits_val 0 (Str.ch b))).
    { apply float_nocomma_digits; [done|]. simpl. by rewrite Hdb. }
    change (String.get 1 (String a (String b EmptyString))) with (Some b).
    cbn [fmap option_fmap option_map]. rewrite Hfa, Hfb.
    eexists. split; [done|].
    pose proof (digits_val_nonneg (Str.ch a) 0). simpl in *. rewrite Hda in *.
    pose proof (digit_val_nonneg a Hda). pose proof (digit_val_nonneg b Hdb).
    unfold Num.digits_val. lia.
  - destruct (amount_float _ _ _ Ha) as [v Hv]. exists v. split; [done|].
    by apply (float_nonneg (Str.remove_char "," g)).
Qed.

Lemma dollar_amount_decides : decides Re.dollar_amount.
Proof.
  intros s m r. unfold Re.dollar_amount.
  destruct s as [|c s]; [done|]. destruct (Ascii.eqb c "$"); [|done].
  destruct (Re.amount s) as [[g r']|] eqn:Ha; [|done].
  intros [= <- _]. by apply (amount_price s g r').
Qed.

Lemma cycles_amount_decides : decides Re.cycles_amount.
Proof.
  intros s m r. unfold Re.cycles_amount.
  destruct (Re.amount s) as [[g r']|] eqn:Ha; [|done].
  destruct (Re.literal_i "cycle" (Re.spaces r')); [|done].
  intros [= <- _]. by apply (amount_price s g r').
Qed.

Lemma integer_range_decides : decides Re.integer_range.
Proof.
  intros s m r Hm.
  destruct (range_of_match _ _ _ _ Hm) as (g1 & r1 & g2 & s2 & -> & Ha & Hb).
  destruct (integer_float _ _ _ Ha) as [va Hva].
  destruct (integer_float _ _ _ Hb) as [vb Hvb].
  exists (Z.max va vb). unfold price_of_first. cbn [len item nth_error].
  rewrite Hva, Hvb. split; [done|].
  pose proof (float_nonneg _ _ Hva). lia.
Qed.

(** The loop over patterns that all decide: the default when none has a
    match, else a float that is not negative. *)
Lemma price_of_cases (patterns : list Re.matcher) text :
  Forall decides patterns →
  match price_of patterns text with
  | PyInt n => n = 0 ∧ Forall (fun p => Re.findall p text = []) patterns
  | PyFloat v => 0 <= v ∧ Exists (fun p => Re.findall p text ≠ []) patterns
  end.
Proof.
  induction 1 as [|p ps Hp Hps IH]; simpl; [by split|].
  destruct (Re.findall p text) as [|m rest] eqn:Hf.
  - destruct (price_of ps text) as [n|v].
    + destruct IH as [-> IH]. split; [done|]. by constructor.
    + destruct IH as [Hv IH]. split; [done|]. by apply Exists_cons_tl.
  - destruct (scan_match _ _ _ _ _ Hf) as (s' & r' & Hm).
    destruct (Hp _ _ _ Hm) as (v & -> & Hv). split; [done|].
    apply Exists_cons_hd. by rewrite Hf.
Qed.

Lemma price_patterns_decide : Forall decides price_patterns.
Proof.
  repeat constructor;
    [apply dollar_amount_decides | apply cycles_amount_decides
    | apply integer_range_decides].
Qed.

(** X5. The price of an extracted bounty is the integer 0 exactly when
    none of the three patterns has a match in the text of its element;
    otherwise it is a float that is not negative.  A pattern with a match
    always gives the price: the [ValueError] that would pass to the next
    pattern never occurs. *)
Theorem price_is_default_exactly_without_match env e url r :
  _extract_bounty_data env e url = Some r →
  match price r with
  | PyInt n =>
      n = 0
      ∧ Re.findall Re.dollar_amount (get_text (self e)) = []
      ∧ Re.findall Re.cycles_amount (get_text (self e)) = []
      ∧ Re.findall Re.integer_range (get_text (self e)) = []
  | PyFloat v =>
      0 <= v
      ∧ ¬ (Re.findall Re.dollar_amount (get_text (self e)) = []
           ∧ Re.findall Re.cycles_amount (get_text (self e)) = []
           ∧ Re.findall Re.integer_range (get_text (self e)) = [])
  end.
Proof.
  intros (_ & -> & _)%extract_bounty_data_fields.
  pose proof (price_of_cases _ (get_text (self e)) price_patterns_decide) as H.
  destruct (price_of price_patterns (get_text (self e))) as [n|v].
  - destruct H as [-> H]. split; [done|].
    apply Forall_cons in H as [H1 H]. apply Forall_cons in H as [H2 H].
    by apply Forall_cons in H as [H3 _].
  - destruct H as [Hv H]. split; [done|]. intros (H1 & H2 & H3).
    apply Exists_cons in H as [H|H]; [done|].
    apply Exists_cons in H as [H|H]; [done|].
    apply Exists_cons in H as [H|H]; [done|]. by apply Exists_nil in H.
Qed.

(** ** The bounties [scrape_bounties] returns *)

Lemma hexdigest_length s : String.length (Md5.hexdigest s) = 32%nat.
Proof.
  unfold Md5.hexdigest.
  destruct (Md5.blocks _ _ Md5.init) as [a b c d]. reflexivity.
Qed.

Lemma in_structured env sels soup url r :
  In r (structured env sels soup url) →
  ∃ e, _extract_bounty_data env e url = Some r.
Proof.
  induction sels as [|sel sels IH]; cbn [structured]; [done|].
  destruct (select sel soup) as [|e0 els] eqn:Hs; [done|].
  intros (e & _ & He)%in_bounties_of. eauto.
Qed.

Lemma first_page_parse env urls l :
  first_page env urls = Some l →
  ∃ text url, l = _parse_bounties env text url.
Proof.
  induction urls as [|u urls IH]; simpl; [done|].
  destruct (requests_get env u) as [|status text]; [done|].
  destruct (status =? 200); [|done]. intros [= <-]. eauto.
Qed.

(** Where a bounty of the result comes from: an element, a match in the
    text of a page, or the sample set. *)
Lemma scraped_origin env r :
  In r (scrape_bounties env) →
  (∃ e url, _extract_bounty_data env e url = Some r)
  ∨ (∃ html url, In r (_extract_from_text env html url))
  ∨ In r (_get_sample_bounties env).
Proof.
  unfold scrape_bounties.
  destruct (first_page env urls_to_try) as [l|] eqn:Hp; [|by right; right].
  destruct (first_page_parse _ _ _ Hp) as (text & url & ->).
  destruct (BeautifulSoup env text) as [soup|] eqn:Hsoup;
    [|by rewrite parse_bounties_rejected].
  rewrite (parse_bounties_tiers _ _ _ _ Hsoup).
  destruct (structured env bounty_selectors soup url) as [|b l] eqn:Hs.
  - intros Hr. right. left. eauto.
  - rewrite <- Hs. intros (e & He)%in_structured. left. eauto.
Qed.

(** X6. Every bounty that [scrape_bounties] returns, from whichever tier,
    has an id of 32 characters and a price that is not negative. *)
Theorem scraped_bounty_has_md5_id_and_price env r :
  In r (scrape_bounties env) →
  String.length (bounty_id r) = 32%nat ∧ 0 <= Num.value (price r).
Proof.
  intros [(e & url & He)|[(html & url & Hr)|Hr]]%scraped_origin.
  - pose proof (price_is_nonneg_helper := price_of_cases _ (get_text (self e))
                                            price_patterns_decide).
    apply extract_bounty_data_fields in He as (_ & Hp & _ & Hid).
    rewrite Hid, hexdigest_length, Hp. split; [done|].
    destruct (price_of price_patterns (get_text (self e))) as [n|v]; simpl.
    + by destruct price_is_nonneg_helper as [-> _].
    + by destruct price_is_nonneg_helper as [? _].
  - apply in_extract_from_text in Hr as (v & Hv & ->). simpl.
    rewrite hexdigest_length. split; [done | lia].
  - destruct Hr as [<-|[<-|[<-|[]]]]; simpl; by rewrite hexdigest_length.
Qed.

(** ** The storage file *)

(** X7. When the save succeeds, a process that starts after
    [save_sent_bounties] holds exactly the set that was saved.  When the
    save fails because [open] raises, nothing changes, neither the file
    nor the set.  When it fails in the writing, after [open] has emptied
    the file, the set in memory is as it was, the file is left with a text
    that cannot be read, and a process that starts afterwards holds no
    id, the ids saved before included. *)
Theorem saved_set_is_restored env w :
  (writable (disk w) = true →
     sent_bounties (restart (snd (save_sent_bounties env w))) = sent_bounties w)
  ∧ (writable (disk w) = false → failure (disk w) = Open_fails →
     snd (save_sent_bounties env w) = w)
  ∧ (writable (disk w) = false → failure (disk w) = Write_fails →
     sent_bounties (snd (save_sent_bounties env w)) = sent_bounties w
     ∧ storage_file (disk (snd (save_sent_bounties env w))) = Some Unreadable
     ∧ sent_bounties (restart (snd (save_sent_bounties env w))) = ∅).
Proof.
  unfold save_sent_bounties, modify, restart, BountyTracker, load_sent_bounties.
  split; [|split].
  - intros ->. simpl. apply list_to_set_elements_L.
  - by intros -> ->.
  - by intros -> ->.
Qed.

(** X8. A process that starts holds the ids that the list of the storage
    file names, each once, and no other; it holds none when the file is
    missing, cannot be read, or has no such list. *)
Theorem started_tracker_holds_the_ids_of_the_file d id :
  (id ∈ sent_bounties (BountyTracker d)
   ↔ ∃ l t, storage_file d = Some (Json (Some l) t) ∧ id ∈ l)
  ∧ disk (BountyTracker d) = d
  ∧ (storage_file d = None ∨ storage_file d = Some Unreadable
     ∨ (∃ t, storage_file d = Some (Json None t)) →
     sent_bounties (BountyTracker d) = ∅).
Proof.
  unfold BountyTracker, load_sent_bounties, modify. simpl.
  destruct d as [[[|[l|] t]|] wr]; simpl.
  - split; [|split; [done|done]].
    split; [set_solver | by intros (l & t & ? & _)].
  - split; [|split; [done|]].
    + rewrite elem_of_list_to_set. split; [eauto|].
      by intros (l' & t' & [= <- _] & ?).
    + intros [?|[?|[t' ?]]]; done.
  - split; [|split; [done|done]].
    split; [set_solver | by intros (l & t' & ? & _)].
  - split; [|split; [done|done]].
    split; [set_solver | by intros (l & t & ? & _)].
Qed.

(** ** What a request does to the store *)

Lemma highest_unsent_in sent (l : list Bounty) r :
  highest_unsent sent l = Some r → In r l.
Proof.
  unfold highest_unsent, unsent.
  destruct (List.filter _ l) as [|b rest] eqn:Hf; [done|]. intros [= <-].
  destruct (max_from_split b rest) as (l1 & l2 & Heq & _).
  assert (Hin : In (max_from b rest) (List.filter
            (fun b => negb (bool_decide (bounty_id b ∈ sent))) l)).
  { rewrite Hf, Heq. apply in_elt. }
  by apply filter_In in Hin as [? _].
Qed.

(** The world after [trigger_scrape], by the choice and the delivery. *)
Lemma trigger_scrape_outcome env w :
  match highest_unsent (sent_bounties w) (scrape_bounties env) with
  | None => snd (trigger_scrape env w) = w
  | Some r =>
      snd (trigger_scrape env w)
      = if delivered env r then snd (mark_bounty_sent env (bounty_id r) w) else w
  end.
Proof.
  unfold trigger_scrape, highest_unsent, delivered.
  destruct (scrape_bounties env) as [|b0 l0]; [done|].
  unfold bind, gets.
  destruct (unsent (sent_bounties w) (b0 :: l0)) as [|b rest]; [done|].
  destruct (getenv env "SLACK_WEBHOOK_URL") as [[|c u]|]; [done| |done].
  destruct (send_bounty_notification env (String c u) (max_from b rest)); [|done].
  unfold ret. by destruct (mark_bounty_sent env _ w).
Qed.

(** X10. A request to [POST /scrape] leaves the world as it is, or marks
    one bounty: a bounty of the scrape whose id was not in the store and
    whose notification succeeded.  The store grows by that one id. *)
Theorem trigger_scrape_adds_at_most_one_id env w :
  snd (trigger_scrape env w) = w
  ∨ ∃ r, In r (scrape_bounties env)
      ∧ (bounty_id r ∉ sent_bounties w)
      ∧ delivered env r = true
      ∧ snd (trigger_scrape env w) = snd (mark_bounty_sent env (bounty_id r) w)
      ∧ sent_bounties (snd (trigger_scrape env w))
        = {[bounty_id r]} ∪ sent_bounties w.
Proof.
  pose proof (trigger_scrape_outcome env w) as H.
  destruct (highest_unsent (sent_bounties w) (scrape_bounties env)) as [r|] eqn:Hr;
    [|by left].
  destruct (delivered env r) eqn:Hd; [|by left].
  right. exists r. rewrite H, mark_bounty_sent_sent.
  split; [by apply (highest_unsent_in _ _ _ Hr)|].
  split; [by apply (highest_unsent_unsent _ _ _ Hr)|]. done.
Qed.

Lemma chosen_is_not_sent sent (l : list Bounty) r id :
  id ∈ sent → highest_unsent sent l = Some r → bounty_id r ≠ id.
Proof.
  intros Hid Hr%highest_unsent_unsent Heq. by rewrite Heq in Hr.
Qed.

(** X9. Once [trigger_scrape] has delivered a bounty, no later request
    chooses a bounty with its id, whatever the page then shows and
    whatever operations came between; when the storage file can be
    written, this holds through restarts of the process too. *)
Theorem delivered_bounty_is_not_chosen_again env w r :
  highest_unsent (sent_bounties w) (scrape_bounties env) = Some r →
  delivered env r = true →
  (∀ ops env' r',
     highest_unsent (sent_bounties (perform_all ops (snd (trigger_scrape env w))))
       (scrape_bounties env') = Some r' →
     bounty_id r' ≠ bounty_id r)
  ∧ (writable (disk w) = true →
     ∀ evs env' r',
       highest_unsent (sent_bounties (happen_all evs (snd (trigger_scrape env w))))
         (scrape_bounties env') = Some r' →
       bounty_id r' ≠ bounty_id r).
Proof.
  intros Hr Hd. pose proof (trigger_scrape_outcome env w) as H.
  rewrite Hr, Hd in H. rewrite H. split.
  - intros ops env' r'. apply chosen_is_not_sent.
    apply (perform_all_grows ops). rewrite mark_bounty_sent_sent. set_solver.
  - intros Hw evs env' r'. apply chosen_is_not_sent.
    apply (happen_all_persisted evs (bounty_id r)), mark_persisted; auto.
Qed.

Lemma unsent_nil sent (l : list Bounty) :
  (∀ b, In b l → bounty_id b ∈ sent) → unsent sent l = [].
Proof.
  intros H. unfold unsent. induction l as [|b l IH]; simpl; [done|].
  rewrite bool_decide_eq_true_2 by (apply H; by left). simpl.
  apply IH. intros b' Hb'. apply H. by right.
Qed.

(** X11. When every bounty of the scrape is already in the store, and
    also when the scrape is empty, [trigger_scrape] answers 200 with
    status [success] and no bounty, the world is unchanged, and the
    message says which of the two it is. *)
Theorem trigger_scrape_without_new_bounty env w :
  (∀ b, In b (scrape_bounties env) → bounty_id b ∈ sent_bounties w) →
  trigger_scrape env w
  = (match scrape_bounties env with
     | [] =>
         mkResponse
           [ ("status", JStr "success"); ("message", JStr "No bounties found");
             ("bounties", JList []) ] 200
     | b :: l =>
         mkResponse
           [ ("status", JStr "success");
             ("message", JStr "No new bounties to send");
             ("total_bounties", JNum (length (b :: l)));
             ("new_bounties", JNum 0) ] 200
     end, w).
Proof.
  intros H%unsent_nil. unfold trigger_scrape.
  destruct (scrape_bounties env) as [|b l]; [done|].
  unfold bind, gets. by rewrite H.
Qed.

(** ** The other endpoints *)

Lemma remove_all_absent old t :
  Str.contains old t = false → remove_all old 0 t = t.
Proof.
  induction t as [|c t IH]; [done|]. simpl.
  destruct (Str.strip_prefix old (String c t)); [done|].
  intros H. by rewrite IH.
Qed.

(** X12. [daily_webhook] either answers as [trigger_scrape] does or
    answers 401 and leaves the world as it is.  Without a token in the
    environment every request is let through.  With a token that has no
    [Bearer ] inside, the header [Bearer ] followed by the token is let
    through, and so is the bare token; a request without the header, or
    with a header that differs from the token once every [Bearer ] is
    removed from it, gets the 401. *)
Theorem daily_webhook_checks_the_token env request w :
  (daily_webhook env request w = trigger_scrape env w
   ∨ daily_webhook env request w = (unauthorized, w))
  ∧ (getenv env "WEBHOOK_TOKEN" = None
     ∨ getenv env "WEBHOOK_TOKEN" = Some EmptyString →
     daily_webhook env request w = trigger_scrape env w)
  ∧ (∀ tok,
       getenv env "WEBHOOK_TOKEN" = Some tok → tok ≠ EmptyString →
       (∀ h, headers request "Authorization" = Some h →
             remove_all "Bearer " 0 h ≠ tok →
             daily_webhook env request w = (unauthorized, w))
       ∧ (headers request "Authorization" = None →
          daily_webhook env request w = (unauthorized, w))
       ∧ (Str.contains "Bearer " tok = false →
          (headers request "Authorization" = Some ("Bearer " +:+ tok) →
           daily_webhook env request w = trigger_scrape env w)
          ∧ (headers request "Authorization" = Some tok →
             daily_webhook env request w = trigger_scrape env w))).
Proof.
  unfold daily_webhook. split; [|split].
  - destruct (getenv env "WEBHOOK_TOKEN") as [[|c t]|]; [by left| |by left].
    destruct (negb _); [by right | by left].
  - by intros [->| ->].
  - intros tok -> Hne. destruct tok as [|c t]; [done|].
    split; [|split].
    + intros h -> Hh. simpl.
      destruct (String.eqb_spec (remove_all "Bearer " 0 h) (String c t)); done.
    + by intros ->.
    + intros Hc. split; intros ->; cbn [default].
      * assert (E : remove_all "Bearer " 0 ("Bearer " +:+ String c t) = String c t).
        { change (remove_all "Bearer " 0 ("Bearer " +:+ String c t))
            with (remove_all "Bearer " 0 (String c t)).
          by apply remove_all_absent. }
        unfold id. by rewrite E, String.eqb_refl.
      * unfold id. by rewrite (remove_all_absent _ _ Hc), String.eqb_refl.
Qed.

(** X13. [test_slack] never changes the world.  It answers 400 exactly
    when no webhook is configured; otherwise it answers 200 whether the
    notification went out or not, and the status is [success] exactly
    when it did. *)
Theorem test_slack_reports_and_marks_nothing env w :
  snd (test_slack env w) = w
  ∧ (code (fst (test_slack env w)) = 400 ↔ webhook_configured env = false)
  ∧ (webhook_configured env = true →
     code (fst (test_slack env w)) = 200
     ∧ (field "status" (fst (test_slack env w)) = Some (JStr "success")
        ↔ delivered env (test_bounty env) = true)).
Proof.
  unfold test_slack, webhook_configured, delivered.
  destruct (getenv env "SLACK_WEBHOOK_URL") as [[|c u]|]; simpl;
    [by repeat split| |by repeat split].
  destruct (send_bounty_notification env (String c u) (test_bounty env));
    by repeat split.
Qed.

(** ** The set in memory and the set on the disk *)

Lemma restart_disk w : disk (restart w) = disk w.
Proof.
  unfold restart, BountyTracker, load_sent_bounties, modify. simpl.
  by destruct (storage_file (disk w)) as [[|data t]|].
Qed.

Lemma restart_restart w : restart (restart w) = restart w.
Proof. unfold restart at 1. by rewrite restart_disk. Qed.

Lemma save_synced env w :
  writable (disk w) = true → synced (snd (save_sent_bounties env w)).
Proof.
  intros Hw. unfold synced. split.
  - unfold save_sent_bounties, modify. simpl. by rewrite Hw.
  - unfold save_sent_bounties, modify, restart, BountyTracker, load_sent_bounties.
    simpl. rewrite Hw. simpl. apply list_to_set_elements_L.
Qed.

Lemma mark_synced env id w :
  writable (disk w) = true → synced (snd (mark_bounty_sent env id w)).
Proof.
  intros Hw. unfold mark_bounty_sent, bind, modify. cbv beta iota.
  by apply save_synced.
Qed.

Lemma perform_synced op w : synced w → synced (perform op w).
Proof.
  intros [Hw Hs]. destruct op as [j|env j|env|env|env]; cbn [perform];
    [done| | | |done].
  - by apply mark_synced.
  - by apply save_synced.
  - destruct (trigger_scrape_world env w) as [->|[j ->]]; [done|].
    by apply mark_synced.
Qed.

Lemma restart_synced w : writable (disk w) = true → synced (restart w).
Proof.
  intros Hw. unfold synced. by rewrite restart_restart, restart_disk.
Qed.

Lemma happen_all_synced evs w : synced w → synced (happen_all evs w).
Proof.
  revert w. induction evs as [|ev evs IH]; intros w H; simpl; [done|].
  apply IH. destruct ev as [op|]; simpl.
  - by apply perform_synced.
  - apply restart_synced. by destruct H.
Qed.

(** X14. In a run that begins with a start of the process on a storage
    file that can be written, a restart at any point gives back exactly
    the set that the process held: after any operations and restarts,
    the set in memory is the one the file lists. *)
Theorem restart_restores_the_set d evs :
  writable d = true →
  sent_bounties (restart (happen_all evs (BountyTracker d)))
  = sent_bounties (happen_all evs (BountyTracker d)).
Proof.
  intros Hw.
  assert (H : synced (BountyTracker d)).
  { change (BountyTracker d) with (restart (mkWorld ∅ d)). by apply restart_synced. }
  by destruct (happen_all_synced evs _ H).
Qed.

(** ** Two-character matches and the title *)

(** X15. When the dollar pattern has a match in the text, its first match
    decides the price.  If that match is not two characters long, the
    price is its value.  If it is, the two characters are digits and the
    price is the greater digit, not the value of the match. *)
Theorem dollar_match_decides_price text g rest :
  Re.findall Re.dollar_amount text = MStr g :: rest →
  (String.length g ≠ 2%nat →
     ∃ v, float_nocomma g = Some v ∧ price_of price_patterns text = PyFloat v)
  ∧ (String.length g = 2%nat →
     ∃ a b, g = String a (String b EmptyString)
       ∧ float_nocomma g = Some (100 * (10 * Num.digit_val a + Num.digit_val b))
       ∧ price_of price_patterns text
         = PyFloat (100 * Z.max (Num.digit_val a) (Num.digit_val b))).
Proof.
  intros H1. split; [by apply (price_of_dollar _ _ rest)|]. intros Hlen.
  destruct (scan_match _ _ _ _ _ H1) as (s' & r' & Hm).
  unfold Re.dollar_amount in Hm.
  destruct s' as [|c s']; [done|]. destruct (Ascii.eqb c "$"); [|done].
  destruct (Re.amount s') as [[g' r'']|] eqn:Ha; [|done].
  injection Hm as -> _.
  destruct (amount_two _ _ _ Ha Hlen) as (a & b & -> & Hda & Hdb).
  exists a, b. split; [done|]. split.
  - rewrite float_nocomma_digits; [|done|simpl; by rewrite Hda, Hdb].
    simpl. f_equal; lia.
  - unfold price_patterns. cbn [price_of]. rewrite H1.
    unfold price_of_first. cbn [len String.length Nat.eqb item].
    change (String.get 0 (String a (String b EmptyString))) with (Some a).
    change (String.get 1 (String a (String b EmptyString))) with (Some b).
    cbn [fmap option_fmap option_map].
    rewrite !float_nocomma_digits by (try done; simpl; by rewrite ?Hda, ?Hdb).
    simpl. f_equal; lia.
Qed.

Lemma title_of_first (pre : list selector) sel post e t :
  (∀ s, In s pre → select_one s e = None) → select_one sel e = Some t →
  title_of (pre ++ sel :: post) e = get_text_strip (self t).
Proof.
  intros Hpre Hsel. induction pre as [|s pre IH]; simpl; [by rewrite Hsel|].
  rewrite (Hpre s) by (by left). apply IH. intros s' Hs'. apply Hpre. by right.
Qed.

Lemma title_of_none (sels : list selector) e :
  (∀ s, In s sels → select_one s e = None) → title_of sels e = "Unknown Title".
Proof.
  induction sels as [|s sels IH]; intros H; simpl; [done|].
  rewrite (H s) by (by left). apply IH. intros s' Hs'. apply H. by right.
Qed.

(** X16. The title of an extracted bounty is the stripped text of the
    element found by the first title selector, in the order of the list,
    that finds one inside the element, wherever in the element the later
    selectors would find theirs; it is [Unknown Title] when no selector
    finds any. *)
Theorem title_comes_from_first_title_selector env e url r :
  _extract_bounty_data env e url = Some r →
  (∀ pre sel post t,
     title_selectors = (pre ++ sel :: post)%list →
     (∀ s, In s pre → select_one s e = None) →
     select_one sel e = Some t →
     title r = get_text_strip (self t))
  ∧ ((∀ s, In s title_selectors → select_one s e = None) →
     title r = "Unknown Title").
Proof.
  intros (-> & _)%extract_bounty_data_fields. split.
  - intros pre sel post t -> Hpre Hsel. by apply title_of_first.
  - apply title_of_none.
Qed.

(** ** Instances of the further properties *)

Lemma free_text_bounty_is_positive_and_links_to_page_witness :
  In (text_bounty empty_env first_url 50000)
    (_extract_from_text empty_env "<p>$500 or 400-500</p>" first_url)
  ∧ 0 < Num.value (price (text_bounty empty_env first_url 50000))
  ∧ title (text_bounty empty_env first_url 50000)
    = "Replit Service/Bounty - $500.00".
Proof.
  assert (H : In (text_bounty empty_env first_url 50000)
                (_extract_from_text empty_env "<p>$500 or 400-500</p>" first_url))
    by (left; by vm_compute).
  split; [exact H|].
  destruct (free_text_bounty_is_positive_and_links_to_page _ _ _ _ H)
    as (Hp & _ & _ & _ & Ht).
  split; [exact Hp|]. rewrite Ht. by vm_compute.
Defined.

Lemma raw_text_is_bounded_start_of_text_witness :
  _extract_bounty_data dashboard_env (Element [] dashboard_card) first_url
  = Some (dashboard_bounty dashboard_env)
  ∧ (String.length (raw_text (dashboard_bounty dashboard_env)) <= 200)%nat.
Proof.
  assert (H : _extract_bounty_data dashboard_env (Element [] dashboard_card) first_url
              = Some (dashboard_bounty dashboard_env)) by (by vm_compute).
  split; [exact H|].
  exact (proj1 (raw_text_is_bounded_start_of_text _ _ _ _ H)).
Defined.

Lemma price_is_default_exactly_without_match_witness :
  _extract_bounty_data dashboard_env (Element [] dashboard_card) first_url
  = Some (dashboard_bounty dashboard_env)
  ∧ 0 <= 250000
  ∧ ¬ (Re.findall Re.dollar_amount (get_text dashboard_card) = []
       ∧ Re.findall Re.cycles_amount (get_text dashboard_card) = []
       ∧ Re.findall Re.integer_range (get_text dashboard_card) = []).
Proof.
  assert (H : _extract_bounty_data dashboard_env (Element [] dashboard_card) first_url
              = Some (dashboard_bounty dashboard_env)) by (by vm_compute).
  split; [exact H|].
  exact (price_is_default_exactly_without_match _ _ _ _ H).
Defined.

Lemma scraped_bounty_has_md5_id_and_price_witness :
  In (dashboard_bounty dashboard_env) (scrape_bounties dashboard_env)
  ∧ String.length (bounty_id (dashboard_bounty dashboard_env)) = 32%nat
  ∧ 0 <= Num.value (price (dashboard_bounty dashboard_env)).
Proof.
  assert (H : In (dashboard_bounty dashboard_env) (scrape_bounties dashboard_env))
    by (left; by vm_compute).
  split; [exact H|].
  exact (scraped_bounty_has_md5_id_and_price _ _ H).
Defined.

Lemma delivered_bounty_is_not_chosen_again_witness :
  highest_unsent (sent_bounties fresh_world) (scrape_bounties dashboard_env_later)
  = Some (dashboard_bounty dashboard_env_later)
  ∧ delivered dashboard_env_later (dashboard_bounty dashboard_env_later) = true
  ∧ writable (disk fresh_world) = true
  ∧ ∀ evs env' r',
      highest_unsent
        (sent_bounties
           (happen_all evs (snd (trigger_scrape dashboard_env_later fresh_world))))
        (scrape_bounties env') = Some r' →
      bounty_id r' ≠ bounty_id (dashboard_bounty dashboard_env_later).
Proof.
  assert (H : highest_unsent (sent_bounties fresh_world)
                (scrape_bounties dashboard_env_later)
              = Some (dashboard_bounty dashboard_env_later)) by (by vm_compute).
  assert (Hd : delivered dashboard_env_later (dashboard_bounty dashboard_env_later)
               = true) by (by vm_compute).
  assert (Hw : writable (disk fresh_world) = true) by done.
  split; [exact H|]. split; [exact Hd|]. split; [exact Hw|].
  exact (proj2 (delivered_bounty_is_not_chosen_again _ _ _ H Hd) Hw).
Defined.

Lemma trigger_scrape_without_new_bounty_witness :
  (∀ b, In b (scrape_bounties dashboard_env_later) →
        bounty_id b ∈ sent_bounties dashboard_sent_world)
  ∧ trigger_scrape dashboard_env_later dashboard_sent_world
    = (mkResponse
         [ ("status", JStr "success");
           ("message", JStr "No new bounties to send");
           ("total_bounties", JNum 1); ("new_bounties", JNum 0) ] 200,
       dashboard_sent_world).
Proof.
  assert (H : ∀ b, In b (scrape_bounties dashboard_env_later) →
                   bounty_id b ∈ sent_bounties dashboard_sent_world).
  { intros b [<-|[]]. by vm_compute. }
  split; [exact H|].
  exact (trigger_scrape_without_new_bounty _ _ H).
Defined.

Lemma daily_webhook_checks_the_token_witness :
  getenv token_env "WEBHOOK_TOKEN" = Some "s3cret"
  ∧ Str.contains "Bearer " "s3cret" = false
  ∧ daily_webhook token_env (request_with (Some "Bearer s3cret")) fresh_world
    = trigger_scrape token_env fresh_world
  ∧ daily_webhook token_env (request_with (Some "s3cret")) fresh_world
    = trigger_scrape token_env fresh_world
  ∧ daily_webhook token_env (request_with None) fresh_world
    = (unauthorized, fresh_world)
  ∧ daily_webhook token_env (request_with (Some "Bearer guess")) fresh_world
    = (unauthorized, fresh_world).
Proof.
  assert (Ht : getenv token_env "WEBHOOK_TOKEN" = Some "s3cret") by done.
  assert (Hc : Str.contains "Bearer " "s3cret" = false) by done.
  assert (Hne : "s3cret" ≠ EmptyString) by done.
  split; [exact Ht|]. split; [exact Hc|].
  split.
  { destruct (daily_webhook_checks_the_token token_env
                (request_with (Some "Bearer s3cret")) fresh_world)
      as (_ & _ & H).
    destruct (H _ Ht Hne) as (_ & _ & H3). exact (proj1 (H3 Hc) eq_refl). }
  split.
  { destruct (daily_webhook_checks_the_token token_env
                (request_with (Some "s3cret")) fresh_world)
      as (_ & _ & H).
    destruct (H _ Ht Hne) as (_ & _ & H3). exact (proj2 (H3 Hc) eq_refl). }
  split.
  { destruct (daily_webhook_checks_the_token token_env
                (request_with None) fresh_world)
      as (_ & _ & H).
    destruct (H _ Ht Hne) as (_ & H2 & _). exact (H2 eq_refl). }
  destruct (daily_webhook_checks_the_token token_env
              (request_with (Some "Bearer guess")) fresh_world)
    as (_ & _ & H).
  destruct (H _ Ht Hne) as (H1 & _). apply (H1 "Bearer guess" eq_refl). done.
Defined.

Lemma restart_restores_the_set_witness :
  writable saved_disk = true
  ∧ sent_bounties
      (restart
         (happen_all
            [Operation (Post_scrape dashboard_env_later); Restart;
             Operation (Call_mark_bounty_sent dashboard_env "id-2500")]
            (BountyTracker saved_disk)))
    = sent_bounties
        (happen_all
           [Operation (Post_scrape dashboard_env_later); Restart;
            Operation (Call_mark_bounty_sent dashboard_env "id-2500")]
           (BountyTracker saved_disk)).
Proof.
  assert (H : writable saved_disk = true) by done.
  split; [exact H|]. exact (restart_restores_the_set saved_disk _ H).
Defined.

Lemma dollar_match_decides_price_witness :
  Re.findall Re.dollar_amount (get_text cheap_card) = [MStr "25"]
  ∧ String.length "25" = 2%nat
  ∧ ∃ a b, "25" = String a (String b EmptyString)
      ∧ float_nocomma "25" = Some (100 * (10 * Num.digit_val a + Num.digit_val b))
      ∧ price_of price_patterns (get_text cheap_card)
        = PyFloat (100 * Z.max (Num.digit_val a) (Num.digit_val b)).
Proof.
  assert (H : Re.findall Re.dollar_amount (get_text cheap_card) = [MStr "25"])
    by (by vm_compute).
  split; [exact H|]. split; [done|].
  exact (proj2 (dollar_match_decides_price _ _ _ H) eq_refl).
Defined.

Lemma title_comes_from_first_title_selector_witness :
  _extract_bounty_data dashboard_env (Element [] dashboard_card) first_url
  = Some (dashboard_bounty dashboard_env)
  ∧ select_one (ByName "h1") (Element [] dashboard_card) = None
  ∧ (∃ t, select_one (ByName "h2") (Element [] dashboard_card) = Some t
        ∧ title (dashboard_bounty dashboard_env) = get_text_strip (self t)).
Proof.
  assert (H : _extract_bounty_data dashboard_env (Element [] dashboard_card) first_url
              = Some (dashboard_bounty dashboard_env)) by (by vm_compute).
  assert (H1 : select_one (ByName "h1") (Element [] dashboard_card) = None)
    by (by vm_compute).
  split; [exact H|]. split; [exact H1|].
  eexists. split; [by vm_compute|].
  apply (proj1 (title_comes_from_first_title_selector _ _ _ _ H)
           [ByName "h1"] (ByName "h2")
           [ByName "h3"; ByClass "title"; AttrContains None "class" "title"]);
    [done | by intros s [<-|[]] | by vm_compute].
Defined.

(** A page that the parser rejects gives no bounty, although its text has
    a price that the free-text tier would find. *)
Example rejected_markup_gives_no_bounty :
  BeautifulSoup rejected_env rejected_html = None
  ∧ _extract_from_text rejected_env rejected_html first_url
    = [text_bounty rejected_env first_url 50000]
  ∧ _parse_bounties rejected_env rejected_html first_url = []
  ∧ scrape_bounties rejected_env = [].
Proof. by vm_compute. Qed.

Lemma saved_set_is_restored_witness :
  writable failing_disk = false
  ∧ failure failing_disk = Write_fails
  ∧ "id-1000" ∈ sent_bounties (BountyTracker failing_disk)
  ∧ storage_file
      (disk (snd (save_sent_bounties dashboard_env (BountyTracker failing_disk))))
    = Some Unreadable
  ∧ sent_bounties
      (restart (snd (save_sent_bounties dashboard_env (BountyTracker failing_disk))))
    = ∅.
Proof.
  assert (Hw : writable (disk (BountyTracker failing_disk)) = false) by done.
  assert (Hf : failure (disk (BountyTracker failing_disk)) = Write_fails) by done.
  split; [exact Hw|]. split; [exact Hf|]. split; [by vm_compute|].
  destruct (saved_set_is_restored dashboard_env (BountyTracker failing_disk))
    as (_ & _ & H).
  exact (proj2 (H Hw Hf)).
Defined.
